(** * Home Assistant platform adapters: Forecast.io sensor and Z-Wave garage door

    A shallow embedding of
      - [homeassistant/components/sensor/forecast.py]
      - [homeassistant/components/garage_door/zwave.py]
    together with the properties their specification states about them.

    Python objects are records, dictionaries are finite maps, exceptions are
    an error result, and the mutable cache object shared by all sensors is a
    single component of the state threaded through every call. *)

From Stdlib Require Import ZArith Floats Ascii String List Bool Lia.
From stdpp Require Import base option list strings gmap pretty.

Set Warnings "-register-all,-inexact-float,-clear-no-such-hyp".

Local Open Scope string_scope.
Local Open Scope Z_scope.

(** ** Python values and exceptions *)

Module Py.

(** The dynamically typed values that reach the two adapters: JSON scalars
    read off the forecast payload, table entries, configuration values. *)
Inductive value : Type :=
| PyNone
| PyBool (b : bool)
| PyInt (n : Z)
| PyFloat (f : float)
| PyStr (s : string)
| PyList (l : list value).

(** Exceptions, by class.  [ValueError] carries its argument tuple: the
    message and, when the adapter wraps a lower-level failure, that failure. *)
Inductive exn : Type :=
| ConnectError (msg : string)
| HTTPError (msg : string)
| Timeout (msg : string)
| ValueError (msg : string) (cause : option exn)
| KeyError (key : string)
| IndexError (msg : string)
| TypeError (msg : string)
| AttributeError (msg : string).

Definition is_ValueError (e : exn) : bool :=
  match e with ValueError _ _ => true | _ => false end.

(** Outcome of a computation over a mutable state [S]: state changes made
    before an exception is raised are kept, as in Python. *)
Inductive res (S A : Type) : Type :=
| Ok (a : A) (s : S)
| Raise (e : exn) (s : S).
Arguments Ok {S A} a s.
Arguments Raise {S A} e s.

Definition M (S A : Type) : Type := S -> res S A.

Definition ret {S A} (a : A) : M S A := fun s => Ok a s.
Definition raise {S A} (e : exn) : M S A := fun s => Raise e s.
Definition bind {S A B} (m : M S A) (k : A -> M S B) : M S B :=
  fun s => match m s with
           | Ok a s' => k a s'
           | Raise e s' => Raise e s'
           end.
Definition get {S} : M S S := fun s => Ok s s.
Definition gets {S A} (f : S -> A) : M S A := fun s => Ok (f s) s.
Definition modify {S} (f : S -> S) : M S unit := fun s => Ok tt (f s).

(** A pure computation that may raise, run inside a stateful one. *)
Definition lift {S A} (r : exn + A) : M S A :=
  fun s => match r with inr a => Ok a s | inl e => Raise e s end.

(** [try: m except h]: the handler sees the exception and the state at the
    point where it was raised; returning [None] lets the exception go on. *)
Definition try_except {S A} (m : M S A) (h : exn -> option (M S A)) : M S A :=
  fun s => match m s with
           | Ok a s' => Ok a s'
           | Raise e s' => match h e with
                           | Some k => k s'
                           | None => Raise e s'
                           end
           end.

Definition final_state {S A} (r : res S A) : S :=
  match r with Ok _ s => s | Raise _ s => s end.

Definition raised {S A} (r : res S A) : option exn :=
  match r with Ok _ _ => None | Raise e _ => Some e end.

End Py.

Import Py.

#[global] Instance M_ret {S} : MRet (M S) := fun _ a => ret a.
#[global] Instance M_bind {S} : MBind (M S) := fun _ _ k m => bind m k.

(** ** Byte strings: [str.split] and [str.title] *)

Module Str.

Definition is_lower (c : ascii) : bool :=
  let n := nat_of_ascii c in (97 <=? n)%nat && (n <=? 122)%nat.
Definition is_upper (c : ascii) : bool :=
  let n := nat_of_ascii c in (65 <=? n)%nat && (n <=? 90)%nat.
Definition to_upper (c : ascii) : ascii :=
  if is_lower c then ascii_of_nat (nat_of_ascii c - 32) else c.
Definition to_lower (c : ascii) : ascii :=
  if is_upper c then ascii_of_nat (nat_of_ascii c + 32) else c.

(** [s.split(sep)] for a one-character separator: never empty, and empty
    components are kept. *)
Fixpoint split (sep : ascii) (s : string) : list string :=
  match s with
  | EmptyString => [EmptyString]
  | String c rest =>
      if Ascii.eqb c sep then EmptyString :: split sep rest
      else match split sep rest with
           | w :: ws => String c w :: ws
           | [] => [String c EmptyString]
           end
  end.

(** [sep.join(ws)]. *)
Fixpoint join (sep : ascii) (ws : list string) : string :=
  match ws with
  | [] => EmptyString
  | [w] => w
  | w :: ws' => w +:+ String sep (join sep ws')
  end.

(** [s.title()] on ASCII text, which the keys of [SENSOR_TYPES] are: a cased
    character that follows an uncased one (or starts the string) is
    upper-cased, every other cased character is lower-cased.  [prev] is
    CPython's [previous_is_cased].  A character outside ASCII is left as it
    is, as an uncased one; Python's case mapping of such characters is not
    modelled. *)
Fixpoint title_from (prev : bool) (s : string) : string :=
  match s with
  | EmptyString => EmptyString
  | String c rest =>
      if is_lower c then
        String (if prev then c else to_upper c) (title_from true rest)
      else if is_upper c then
        String (if prev then to_lower c else c) (title_from true rest)
      else String c (title_from false rest)
  end.
Definition title (s : string) : string := title_from false s.

Fixpoint concat (ws : list string) : string :=
  match ws with
  | [] => EmptyString
  | w :: ws' => w +:+ concat ws'
  end.

Fixpoint contains (c : ascii) (s : string) : bool :=
  match s with
  | EmptyString => false
  | String d rest => Ascii.eqb d c || contains c rest
  end.

Fixpoint all_lower (s : string) : bool :=
  match s with
  | EmptyString => true
  | String c rest => is_lower c && all_lower rest
  end.

(** Upper-case the first character only. *)
Definition capitalize_first (s : string) : string :=
  match s with
  | EmptyString => EmptyString
  | String c rest => String (to_upper c) rest
  end.

End Str.

(** ** Python arithmetic used by the sensor: [x * 100] and [round(x, 1)] *)

Module PyNum.

Fixpoint repeat_string (n : nat) (s : string) : string :=
  match n with
  | O => EmptyString
  | S n' => s +:+ repeat_string n' s
  end.

(** [m / 2^k] rounded to the nearest integer, ties to even ([0 < k], [0 <= m]). *)
Definition rne_shift (m k : Z) : Z :=
  let q := Z.shiftr m k in
  let r := m - Z.shiftl q k in
  let half := Z.shiftl 1 (k - 1) in
  if r <? half then q
  else if half <? r then q + 1
  else if Z.even q then q else q + 1.

Definition float_of_Z (n : Z) : float := PrimFloat.of_uint63 (Uint63.of_Z n).

(** [float.__round__(x, 1)] on binary64, as CPython computes it: the exact
    value of [x] is rounded to the nearest multiple of 1/10 (ties to even),
    and that decimal is converted back to the nearest double.  Infinities,
    NaNs and zeros are returned as they are.  A finite [x] is [m * 2^e];
    from [e = -3] on neighbouring doubles are at least 1/8 apart, so the
    double nearest to the rounded decimal is [x] itself; below that the
    integer [n] of tenths is smaller than [2^53], both [n] and [10] are
    exact doubles and the IEEE division [n / 10] is the nearest double. *)
Definition round1 (x : float) : float :=
  match Prim2SF x with
  | S754_finite s m e =>
      if -3 <=? e then x
      else
        let n := rne_shift (10 * Z.pos m) (- e) in
        let r := (float_of_Z n / 10)%float in
        if s then (- r)%float else r
  | _ => x
  end.

(** [v * 100].  [bool] is a subclass of [int]; a sequence is repeated. *)
Definition mul100 (v : value) : exn + value :=
  match v with
  | PyNone => inl (TypeError "unsupported operand type(s) for *")
  | PyBool b => inr (PyInt (if b then 100 else 0))
  | PyInt n => inr (PyInt (n * 100))
  | PyFloat f => inr (PyFloat (f * 100)%float)
  | PyStr s => inr (PyStr (repeat_string 100 s))
  | PyList l => inr (PyList (List.concat (List.repeat l 100)))
  end.

(** [round(v, 1)]: an [int] is returned unchanged, a [float] is rounded to
    one decimal, anything else has no [__round__]. *)
Definition round_1 (v : value) : exn + value :=
  match v with
  | PyBool b => inr (PyInt (if b then 1 else 0))
  | PyInt n => inr (PyInt n)
  | PyFloat f => inr (PyFloat (round1 f))
  | _ => inl (TypeError "type doesn't define __round__ method")
  end.

End PyNum.

(** ** The Forecast.io sensor platform *)

Module Forecast.

(** *** The static sensor-type table *)

(** Name, si unit, us unit, ca unit, uk unit, uk2 unit. *)
Definition SENSOR_TYPES_items : list (string * list value) :=
  [
    ("summary", [PyStr "Summary"; PyNone; PyNone; PyNone; PyNone; PyNone]);
    ("minutely_summary",
      [PyStr "Minutely Summary"; PyNone; PyNone; PyNone; PyNone; PyNone]);
    ("hourly_summary",
      [PyStr "Hourly Summary"; PyNone; PyNone; PyNone; PyNone; PyNone]);
    ("daily_summary",
      [PyStr "Daily Summary"; PyNone; PyNone; PyNone; PyNone; PyNone]);
    ("icon", [PyStr "Icon"; PyNone; PyNone; PyNone; PyNone; PyNone]);
    ("nearest_storm_distance",
      [PyStr "Nearest Storm Distance";
       PyStr "km"; PyStr "m"; PyStr "km"; PyStr "km"; PyStr "m"]);
    ("nearest_storm_bearing",
      [PyStr "Nearest Storm Bearing";
       PyStr "Â°"; PyStr "Â°"; PyStr "Â°"; PyStr "Â°"; PyStr "Â°"]);
    ("precip_type", [PyStr "Precip"; PyNone; PyNone; PyNone; PyNone; PyNone]);
    ("precip_intensity",
      [PyStr "Precip Intensity";
       PyStr "mm"; PyStr "in"; PyStr "mm"; PyStr "mm"; PyStr "mm"]);
    ("precip_probability",
      [PyStr "Precip Probability";
       PyStr "%"; PyStr "%"; PyStr "%"; PyStr "%"; PyStr "%"]);
    ("temperature",
      [PyStr "Temperature";
       PyStr "Â°C"; PyStr "Â°F"; PyStr "Â°C"; PyStr "Â°C"; PyStr "Â°C"]);
    ("apparent_temperature",
      [PyStr "Apparent Temperature";
       PyStr "Â°C"; PyStr "Â°F"; PyStr "Â°C"; PyStr "Â°C"; PyStr "Â°C"]);
    ("dew_point",
      [PyStr "Dew point";
       PyStr "Â°C"; PyStr "Â°F"; PyStr "Â°C"; PyStr "Â°C"; PyStr "Â°C"]);
    ("wind_speed",
      [PyStr "Wind Speed";
       PyStr "m/s"; PyStr "mph"; PyStr "km/h"; PyStr "mph"; PyStr "mph"]);
    ("wind_bearing",
      [PyStr "Wind Bearing";
       PyStr "Â°"; PyStr "Â°"; PyStr "Â°"; PyStr "Â°"; PyStr "Â°"]);
    ("cloud_cover",
      [PyStr "Cloud Coverage";
       PyStr "%"; PyStr "%"; PyStr "%"; PyStr "%"; PyStr "%"]);
    ("humidity",
      [PyStr "Humidity";
       PyStr "%"; PyStr "%"; PyStr "%"; PyStr "%"; PyStr "%"]);
    ("pressure",
      [PyStr "Pressure";
       PyStr "mbar"; PyStr "mbar"; PyStr "mbar"; PyStr "mbar"; PyStr "mbar"]);
    ("visibility",
      [PyStr "Visibility";
       PyStr "km"; PyStr "m"; PyStr "km"; PyStr "km"; PyStr "m"]);
    ("ozone",
      [PyStr "Ozone";
       PyStr "DU"; PyStr "DU"; PyStr "DU"; PyStr "DU"; PyStr "DU"])
  ].

Definition SENSOR_TYPES : gmap string (list value) :=
  list_to_map SENSOR_TYPES_items.

Definition DEFAULT_NAME : string := "Forecast.io".

(** Clock values are microseconds, the resolution of [datetime]. *)
Definition timedelta_seconds (s : Z) : Z := s * 1000000.

(** Return cached results if last scan was less then this time ago. *)
Definition MIN_TIME_BETWEEN_UPDATES : Z := timedelta_seconds 120.

(** *** [convert_to_camel] *)

(** Convert snake case (foo_bar_bat) to camel case (fooBarBat). *)
Definition convert_to_camel (data : string) : string :=
  let components := Str.split "_" data in
  match components with
  | c0 :: rest => c0 +:+ Str.concat (map Str.title rest)
  | [] => EmptyString
  end.

(** *** The forecast payload, as python-forecastio hands it over *)

(** A data point or data block: the attributes [getattr] can read. *)
Record DataBlock : Type := { attrs : gmap string value }.

(** A loaded forecast: the dictionary-valued entries of its [json] and the
    four sub-views its accessor methods return. *)
Record ForecastIO : Type := {
  json : gmap string (gmap string value);
  currently : DataBlock;
  minutely : DataBlock;
  hourly : DataBlock;
  daily : DataBlock
}.

(** [getattr(obj, name, default)]; [obj] may be [None]. *)
Definition getattr (obj : option DataBlock) (name : string) (default : value)
  : value :=
  match obj with
  | Some d => match attrs d !! name with Some v => v | None => default end
  | None => default
  end.

(** *** The cache object *)

(** The five throttled methods of [ForeCastData]; each decorator instance
    keeps its own entry in the object's [_throttle] dictionary. *)
Inductive method : Type :=
| m_update
| m_update_currently
| m_update_minutely
| m_update_hourly
| m_update_daily.

#[global] Instance method_eq_dec : EqDecision method.
Proof. solve_decision. Defined.

Definition method_to_nat (m : method) : nat :=
  match m with
  | m_update => 0
  | m_update_currently => 1
  | m_update_minutely => 2
  | m_update_hourly => 3
  | m_update_daily => 4
  end.

Definition method_of_nat (n : nat) : method :=
  match n with
  | 0%nat => m_update
  | 1%nat => m_update_currently
  | 2%nat => m_update_minutely
  | 3%nat => m_update_hourly
  | _ => m_update_daily
  end.

#[global] Instance method_countable : Countable method.
Proof.
  apply (inj_countable' method_to_nat method_of_nat).
  intros []; reflexivity.
Defined.

Record ForeCastData : Type := {
  _api_key : value;
  latitude : value;
  longitude : value;
  units : value;
  data : option ForecastIO;
  unit_system : value;
  data_currently : option DataBlock;
  data_minutely : option DataBlock;
  data_hourly : option DataBlock;
  data_daily : option DataBlock;
  _throttle : gmap method Z
}.

Definition set_data (p : ForecastIO) (c : ForeCastData) : ForeCastData :=
  {| _api_key := _api_key c; latitude := latitude c; longitude := longitude c;
     units := units c; data := Some p; unit_system := unit_system c;
     data_currently := data_currently c; data_minutely := data_minutely c;
     data_hourly := data_hourly c; data_daily := data_daily c;
     _throttle := _throttle c |}.

Definition set_unit_system (u : value) (c : ForeCastData) : ForeCastData :=
  {| _api_key := _api_key c; latitude := latitude c; longitude := longitude c;
     units := units c; data := data c; unit_system := u;
     data_currently := data_currently c; data_minutely := data_minutely c;
     data_hourly := data_hourly c; data_daily := data_daily c;
     _throttle := _throttle c |}.

Definition set_data_currently (d : DataBlock) (c : ForeCastData) : ForeCastData :=
  {| _api_key := _api_key c; latitude := latitude c; longitude := longitude c;
     units := units c; data := data c; unit_system := unit_system c;
     data_currently := Some d; data_minutely := data_minutely c;
     data_hourly := data_hourly c; data_daily := data_daily c;
     _throttle := _throttle c |}.

Definition set_data_minutely (d : DataBlock) (c : ForeCastData) : ForeCastData :=
  {| _api_key := _api_key c; latitude := latitude c; longitude := longitude c;
     units := units c; data := data c; unit_system := unit_system c;
     data_currently := data_currently c; data_minutely := Some d;
     data_hourly := data_hourly c; data_daily := data_daily c;
     _throttle := _throttle c |}.

Definition set_data_hourly (d : DataBlock) (c : ForeCastData) : ForeCastData :=
  {| _api_key := _api_key c; latitude := latitude c; longitude := longitude c;
     units := units c; data := data c; unit_system := unit_system c;
     data_currently := data_currently c; data_minutely := data_minutely c;
     data_hourly := Some d; data_daily := data_daily c;
     _throttle := _throttle c |}.

Definition set_data_daily (d : DataBlock) (c : ForeCastData) : ForeCastData :=
  {| _api_key := _api_key c; latitude := latitude c; longitude := longitude c;
     units := units c; data := data c; unit_system := unit_system c;
     data_currently := data_currently c; data_minutely := data_minutely c;
     data_hourly := data_hourly c; data_daily := Some d;
     _throttle := _throttle c |}.

Definition set_throttle (t : gmap method Z) (c : ForeCastData) : ForeCastData :=
  {| _api_key := _api_key c; latitude := latitude c; longitude := longitude c;
     units := units c; data := data c; unit_system := unit_system c;
     data_currently := data_currently c; data_minutely := data_minutely c;
     data_hourly := data_hourly c; data_daily := data_daily c;
     _throttle := t |}.

(** *** The sensor entity *)

(** The [forecast_data] attribute is a reference to the one cache object all
    sensors of a platform share; it is the [cache] component of the state. *)
Record ForeCastSensor : Type := {
  client_name : value;
  _name : value;
  type : string;
  _state : value;
  _unit_of_measurement : value
}.

Definition set_state (v : value) (s : ForeCastSensor) : ForeCastSensor :=
  {| client_name := client_name s; _name := _name s; type := type s;
     _state := v; _unit_of_measurement := _unit_of_measurement s |}.

Definition set_unit_of_measurement (u : value) (s : ForeCastSensor)
  : ForeCastSensor :=
  {| client_name := client_name s; _name := _name s; type := type s;
     _state := _state s; _unit_of_measurement := u |}.

(** *** The world outside the adapter *)

(** One outbound call [forecastio.load_forecast(key, lat, lon, units=...)]. *)
Record Request : Type := {
  req_api_key : value;
  req_latitude : value;
  req_longitude : value;
  req_units : value
}.

(** What the adapter cannot control: the value of the clock at each reading
    and the outcome of each call to the forecast service. *)
Record Env : Type := {
  utcnow : nat -> Z;
  load_forecast : nat -> Request -> exn + ForecastIO
}.

Inductive log_entry : Type :=
| LogError (msg : string)
| LogException (e : exn)
| LogMissingItems (items : list string)
| LogNoSuchSensorType (variable : value).

(** The observable effects so far.  [now] is the latest clock reading;
    [snapshot_of] is bookkeeping the code does not have: for [m_update] the
    clock value at which the payload held in [data] was fetched, for a
    sub-view method the fetch time of the payload its sub-view was cut from. *)
Record World : Type := {
  clock_reads : nat;
  now : Z;
  requests : list Request;
  errors : list log_entry;
  added : list (list ForeCastSensor);
  snapshot_of : gmap method Z
}.

Definition new_world : World :=
  {| clock_reads := 0; now := 0; requests := []; errors := []; added := [];
     snapshot_of := ∅ |}.

Record State : Type := { world : World; cache : ForeCastData }.

Definition with_cache (f : ForeCastData -> ForeCastData) (st : State) : State :=
  {| world := world st; cache := f (cache st) |}.

Definition with_world (f : World -> World) (st : State) : State :=
  {| world := f (world st); cache := cache st |}.

Definition tick (t : Z) (w : World) : World :=
  {| clock_reads := S (clock_reads w); now := t; requests := requests w;
     errors := errors w; added := added w; snapshot_of := snapshot_of w |}.

Definition sent (r : Request) (w : World) : World :=
  {| clock_reads := clock_reads w; now := now w;
     requests := requests w ++ [r];
     errors := errors w; added := added w; snapshot_of := snapshot_of w |}.

Definition logged (l : log_entry) (w : World) : World :=
  {| clock_reads := clock_reads w; now := now w; requests := requests w;
     errors := errors w ++ [l]; added := added w;
     snapshot_of := snapshot_of w |}.

Definition devices_added (l : list ForeCastSensor) (w : World) : World :=
  {| clock_reads := clock_reads w; now := now w; requests := requests w;
     errors := errors w; added := added w ++ [l];
     snapshot_of := snapshot_of w |}.

Definition stamped (m : method) (t : option Z) (w : World) : World :=
  {| clock_reads := clock_reads w; now := now w; requests := requests w;
     errors := errors w; added := added w;
     snapshot_of := match t with
                    | Some t => <[m := t]> (snapshot_of w)
                    | None => delete m (snapshot_of w)
                    end |}.

(** *** [ForeCastData]: the throttled cache *)

Section WithEnv.

Variable env : Env.

(** [utcnow()]: the next clock value. *)
Definition read_clock : M State Z :=
  fun st =>
    let t := utcnow env (clock_reads (world st)) in
    Ok t (with_world (tick t) st).

(** Modelled from the spec: the decorator [homeassistant.util.Throttle] is
    not among the sources.  Each decorated method has its own last-success
    timestamp on the object it is called on; the timestamp is checked before
    any work is done; a call made less than [min_time] after it returns
    without running the body; a body that raises leaves the timestamp as it
    was. *)
Definition Throttle (min_time : Z) (m : method) (body : M State unit)
  : M State unit :=
  t ← read_clock;
  c ← gets cache;
  let limited :=
    match _throttle c !! m with
    | Some last => t - last <? min_time
    | None => false
    end in
  if limited then mret tt
  else
    body;;
    modify (with_cache (fun c => set_throttle (<[m := t]> (_throttle c)) c)).

(** The outbound call: it is recorded, and its outcome is the environment's. *)
Definition forecastio_load_forecast (r : Request) : M State ForecastIO :=
  fun st =>
    let k := length (requests (world st)) in
    let st' := with_world (sent r) st in
    match load_forecast env k r with
    | inr p => Ok p st'
    | inl e => Raise e st'
    end.

Definition dict_get {V} (d : gmap string V) (k : string) : exn + V :=
  match d !! k with
  | Some v => inr v
  | None => inl (KeyError k)
  end.

(** Body of [ForeCastData.update]. *)
Definition update_body : M State unit :=
  try_except
    (c ← gets cache;
     p ← forecastio_load_forecast
           {| req_api_key := _api_key c; req_latitude := latitude c;
              req_longitude := longitude c; req_units := units c |};
     modify (fun st =>
       with_world (stamped m_update (Some (now (world st))))
         (with_cache (set_data p) st)))
    (fun error =>
       match error with
       | ConnectError _ | HTTPError _ | Timeout _ | ValueError _ _ =>
           Some (raise (ValueError "Unable to init Forecast.io. - %s"
                          (Some error)))
       | _ => None
       end);;
  c ← gets cache;
  match data c with
  | Some p =>
      flags ← lift (dict_get (json p) "flags");
      u ← lift (dict_get flags "units");
      modify (with_cache (set_unit_system u))
  | None => raise (AttributeError "'NoneType' object has no attribute 'json'")
  end.

(** Body shared by the four sub-view methods:
    [self.data_<view> = self.data.<view>()]. *)
Definition extract_body (m : method) (view : ForecastIO -> DataBlock)
    (store : DataBlock -> ForeCastData -> ForeCastData) : M State unit :=
  c ← gets cache;
  match data c with
  | Some p =>
      modify (fun st =>
        with_world (stamped m (snapshot_of (world st) !! m_update))
          (with_cache (store (view p)) st))
  | None => raise (AttributeError "'NoneType' object has no such attribute")
  end.

Definition update : M State unit :=
  Throttle MIN_TIME_BETWEEN_UPDATES m_update update_body.

Definition update_currently : M State unit :=
  Throttle MIN_TIME_BETWEEN_UPDATES m_update_currently
    (extract_body m_update_currently currently set_data_currently).

Definition update_minutely : M State unit :=
  Throttle MIN_TIME_BETWEEN_UPDATES m_update_minutely
    (extract_body m_update_minutely minutely set_data_minutely).

Definition update_hourly : M State unit :=
  Throttle MIN_TIME_BETWEEN_UPDATES m_update_hourly
    (extract_body m_update_hourly hourly set_data_hourly).

Definition update_daily : M State unit :=
  Throttle MIN_TIME_BETWEEN_UPDATES m_update_daily
    (extract_body m_update_daily daily set_data_daily).

(** Run a method of the cache object [c] in a world, giving back the object. *)
Definition run_on {A} (c : ForeCastData) (m : M State A)
  : M World (A * ForeCastData) :=
  fun w =>
    match m {| world := w; cache := c |} with
    | Ok a st => Ok (a, cache st) (world st)
    | Raise e st => Raise e (world st)
    end.

(** [ForeCastData.__init__]. *)
Definition ForeCastData_init (api_key lat lon units_ : value)
  : M World ForeCastData :=
  let self :=
    {| _api_key := api_key; latitude := lat; longitude := lon;
       units := units_; data := None; unit_system := PyNone;
       data_currently := None; data_minutely := None; data_hourly := None;
       data_daily := None; _throttle := ∅ |} in
  r ← run_on self update;
  mret (snd r).

(** *** [ForeCastSensor] *)

(** A sensor method runs on the sensor and on the state holding the cache. *)
Definition on_cache {A} (m : M State A) : M (ForeCastSensor * State) A :=
  fun s =>
    match m (snd s) with
    | Ok a st => Ok a (fst s, st)
    | Raise e st => Raise e (fst s, st)
    end.

Definition on_self (f : ForeCastSensor -> ForeCastSensor)
  : M (ForeCastSensor * State) unit :=
  modify (fun s => (f (fst s), snd s)).

(** [{'si': 1, 'us': 2, 'ca': 3, 'uk': 4, 'uk2': 5}.get(unit_system, 1)]. *)
Definition unit_index_of (unit_system_ : value) : exn + nat :=
  match unit_system_ with
  | PyStr k =>
      inr (default 1%nat
             ((list_to_map [("si", 1%nat); ("us", 2%nat); ("ca", 3%nat);
                            ("uk", 4%nat); ("uk2", 5%nat)]
               : gmap string nat) !! k))
  | PyList _ => inl (TypeError "unhashable type: 'list'")
  | _ => inr 1%nat
  end.

Definition list_get {V} (l : list V) (i : nat) : exn + V :=
  match l !! i with
  | Some v => inr v
  | None => inl (IndexError "list index out of range")
  end.

(** Update units based on unit system. *)
Definition update_unit_of_measurement : M (ForeCastSensor * State) unit :=
  s ← get;
  unit_index ← lift (unit_index_of (unit_system (cache (snd s))));
  row ← lift (dict_get SENSOR_TYPES (type (fst s)));
  u ← lift (list_get row unit_index);
  on_self (set_unit_of_measurement u).

Definition py_in (x : string) (l : list string) : bool :=
  existsb (String.eqb x) l.

(** Helper function that returns a new state based on the type. *)
Definition get_currently_state (self : ForeCastSensor)
    (data_ : option DataBlock) : exn + value :=
  let lookup_type := convert_to_camel (type self) in
  let state := getattr data_ lookup_type (PyInt 0) in
  if py_in (type self) ["precip_probability"; "cloud_cover"; "humidity"] then
    match PyNum.mul100 state with
    | inr v => PyNum.round_1 v
    | inl e => inl e
    end
  else if py_in (type self) ["dew_point"; "temperature";
                             "apparent_temperature"; "pressure"; "ozone"] then
    PyNum.round_1 state
  else inr state.

(** Get the latest data from Forecast.io and updates the states. *)
Definition ForeCastSensor_update : M (ForeCastSensor * State) unit :=
  on_cache update;;
  update_unit_of_measurement;;
  s ← get;
  if String.eqb (type (fst s)) "minutely_summary" then
    on_cache update_minutely;;
    s ← get;
    on_self (set_state (getattr (data_minutely (cache (snd s))) "summary"
                          (PyStr "")))
  else if String.eqb (type (fst s)) "hourly_summary" then
    on_cache update_hourly;;
    s ← get;
    on_self (set_state (getattr (data_hourly (cache (snd s))) "summary"
                          (PyStr "")))
  else if String.eqb (type (fst s)) "daily_summary" then
    on_cache update_daily;;
    s ← get;
    on_self (set_state (getattr (data_daily (cache (snd s))) "summary"
                          (PyStr "")))
  else
    on_cache update_currently;;
    s ← get;
    v ← lift (get_currently_state (fst s) (data_currently (cache (snd s))));
    on_self (set_state v).

(** Run a sensor method on a sensor under construction and give the sensor
    back; an exception leaves no sensor behind. *)
Definition constructing (self : ForeCastSensor)
    (m : M (ForeCastSensor * State) unit) : M State ForeCastSensor :=
  fun st =>
    match m (self, st) with
    | Ok _ s => Ok (fst s) (snd s)
    | Raise e s => Raise e (snd s)
    end.

(** [ForeCastSensor.__init__]. *)
Definition ForeCastSensor_init (sensor_type : string) (name : value)
  : M State ForeCastSensor :=
  row ← lift (dict_get SENSOR_TYPES sensor_type);
  n ← lift (list_get row 0);
  constructing
    {| client_name := name; _name := n; type := sensor_type;
       _state := PyNone; _unit_of_measurement := PyNone |}
    ForeCastSensor_update.

(** *** [setup_platform] *)

(** The part of [hass.config] the platform reads. *)
Record HassConfig : Type := {
  hass_latitude : value;
  hass_longitude : value;
  hass_temperature_unit : value
}.

(** The constants imported from [homeassistant.const]. *)
Variables CONF_API_KEY TEMP_CELSIUS : string.

Definition log_error (l : log_entry) : M World unit := modify (logged l).

Definition is_None (v : value) : bool :=
  match v with PyNone => true | _ => false end.

Definition eq_str (v : value) (s : string) : bool :=
  match v with PyStr s' => String.eqb s' s | _ => false end.

(** Modelled from the spec: [homeassistant.helpers.validate_config] is not
    among the sources.  It tells whether every required item is present in
    the platform configuration, and logs the missing ones. *)
Definition validate_config (config : gmap string value)
    (required : list string) : M World bool :=
  let missing :=
    List.filter (fun item => negb (bool_decide (is_Some (config !! item))))
      required in
  match missing with
  | [] => mret true
  | _ :: _ => log_error (LogMissingItems missing);; mret false
  end.

(** [for variable in v]: a list yields its elements, a string its
    characters; nothing else the model holds is iterable. *)
Definition py_iter (v : value) : exn + list value :=
  match v with
  | PyList l => inr l
  | PyStr s =>
      inr (map (fun c => PyStr (String c EmptyString)) (list_ascii_of_string s))
  | _ => inl (TypeError "object is not iterable")
  end.

(** The loop over [config['monitored_conditions']]; [sensors] accumulates. *)
Fixpoint add_sensors (variables : list value) (name : value)
    (sensors : list ForeCastSensor) : M State (list ForeCastSensor) :=
  match variables with
  | [] => mret sensors
  | variable :: rest =>
      match variable with
      | PyStr v =>
          if bool_decide (is_Some (SENSOR_TYPES !! v)) then
            s ← ForeCastSensor_init v name;
            add_sensors rest name (sensors ++ [s])
          else
            modify (with_world (logged (LogNoSuchSensorType variable)));;
            add_sensors rest name sensors
      | PyList _ => raise (TypeError "unhashable type: 'list'")
      | _ =>
          modify (with_world (logged (LogNoSuchSensorType variable)));;
          add_sensors rest name sensors
      end
  end.

(** Setup the Forecast.io sensor.  The result is what the function returns:
    [False], or [None] after [add_devices] has been called. *)
Definition setup_platform (hass : HassConfig) (config : gmap string value)
  : M World value :=
  if is_None (hass_latitude hass) || is_None (hass_longitude hass) then
    log_error
      (LogError "Latitude or longitude not set in Home Assistant config");;
    mret (PyBool false)
  else
    valid ← validate_config config [CONF_API_KEY];
    if negb valid then mret (PyBool false)
    else
      let units_ :=
        match config !! "units" with
        | Some u => u
        | None =>
            if eq_str (hass_temperature_unit hass) TEMP_CELSIUS
            then PyStr "si" else PyStr "us"
        end in
      connected ← try_except
        (forecast_data ← ForeCastData_init
                           (default PyNone (config !! CONF_API_KEY))
                           (hass_latitude hass) (hass_longitude hass) units_;
         r ← run_on forecast_data update_currently;
         mret (Some (snd r)))
        (fun error =>
           if is_ValueError error
           then Some (log_error (LogException error);; mret None)
           else None);
      match connected with
      | None => mret (PyBool false)
      | Some forecast_data =>
          let name := default (PyStr DEFAULT_NAME) (config !! "name") in
          conditions ← lift (dict_get config "monitored_conditions");
          variables ← lift (py_iter conditions);
          r ← run_on forecast_data (add_sensors variables name []);
          modify (devices_added (fst r));;
          mret PyNone
      end.

End WithEnv.

End Forecast.

(** ** The Z-Wave garage door platform *)

Module GarageDoor.

Definition COMMAND_CLASS_SWITCH_BINARY : Z := 37.

(** A value of the Z-Wave network.  [node] identifies the node object the
    value belongs to: two values have [==] nodes when they sit on the same
    node of the network. *)
Record ZWaveValue : Type := {
  value_id : Z;
  node : Z;
  command_class : Z;
  index : Z;
  data : value
}.

(** A node and the values it currently holds, in the order in which its
    value dictionary is walked. *)
Record ZWaveNode : Type := {
  node_id : Z;
  values : list ZWaveValue
}.

(** [node.get_values(class_id=c)]: the values of that command class. *)
Definition get_values (class_id : Z) (n : ZWaveNode) : list ZWaveValue :=
  List.filter (fun v => command_class v =? class_id) (values n).

Record ZwaveGarageDoor : Type := {
  _value : ZWaveValue;
  _node : ZWaveNode
}.

(** What a method asks of the host and of the network. *)
Inductive effect : Type :=
| UpdateHaState (force_refresh : bool)
| LogDebug (v : ZWaveValue)
| SetSwitch (on_node : Z) (id : Z) (to : bool).

(** Called when a value has changed on the network. *)
Definition value_changed (self : ZwaveGarageDoor) (v : ZWaveValue)
  : list effect :=
  if node (_value self) =? node v
  then [UpdateHaState true; LogDebug v]
  else [].

(** The loop of [is_closed] over the values still to visit; falling off the
    end of the loop returns [None]. *)
Fixpoint is_closed_loop (vs : list ZWaveValue) : value :=
  match vs with
  | [] => PyNone
  | v :: rest =>
      if (command_class v =? 37) && (index v =? 0) then data v
      else is_closed_loop rest
  end.

(** Return the current position of Zwave garage door. *)
Definition is_closed (self : ZwaveGarageDoor) : value :=
  is_closed_loop (get_values COMMAND_CLASS_SWITCH_BINARY (_node self)).

(** Close the garage door. *)
Definition close_door (self : ZwaveGarageDoor) : list effect :=
  [SetSwitch (node (_value self)) (value_id (_value self)) false].

(** Open the garage door. *)
Definition open_door (self : ZwaveGarageDoor) : list effect :=
  [SetSwitch (node (_value self)) (value_id (_value self)) true].

(** The value [is_closed] is specified to report: binary switch, index 0. *)
Definition is_door_switch (v : ZWaveValue) : bool :=
  (command_class v =? COMMAND_CLASS_SWITCH_BINARY) && (index v =? 0).

End GarageDoor.

(** * Properties *)

(** ** Strings *)

Module StrFacts.
Import Str.

Lemma split_no_sep (sep : ascii) (w : string) :
  contains sep w = false -> split sep w = [w].
Proof.
  induction w as [|c w IH]; simpl; [reflexivity|].
  intros H. apply orb_false_iff in H as [Hc Hw].
  rewrite Hc, (IH Hw). reflexivity.
Qed.

Lemma split_app_sep (sep : ascii) (w rest : string) :
  contains sep w = false ->
  split sep (w +:+ String sep rest) = w :: split sep rest.
Proof.
  induction w as [|c w IH]; simpl.
  - intros _. rewrite Ascii.eqb_refl. reflexivity.
  - intros H. apply orb_false_iff in H as [Hc Hw].
    rewrite Hc, (IH Hw). reflexivity.
Qed.

Lemma split_join (sep : ascii) (w : string) (ws : list string) :
  Forall (fun x => contains sep x = false) (w :: ws) ->
  split sep (join sep (w :: ws)) = w :: ws.
Proof.
  revert w. induction ws as [|w' ws IH]; intros w H.
  - simpl. apply split_no_sep. by inversion H.
  - inversion H as [|? ? Hw Hrest]; subst.
    change (join sep (w :: w' :: ws))
      with (w +:+ String sep (join sep (w' :: ws))).
    rewrite (split_app_sep _ _ _ Hw), (IH _ Hrest). reflexivity.
Qed.

Lemma is_lower_not_upper (c : ascii) : is_lower c = true -> is_upper c = false.
Proof.
  unfold is_lower, is_upper. intros H.
  apply andb_true_iff in H as [H1 _]. apply Nat.leb_le in H1.
  apply andb_false_iff. right. apply Nat.leb_gt. lia.
Qed.

Lemma title_from_cased_lower (w : string) :
  all_lower w = true -> title_from true w = w.
Proof.
  induction w as [|c w IH]; simpl; [reflexivity|].
  intros H. apply andb_true_iff in H as [Hc Hw].
  rewrite Hc, (IH Hw). reflexivity.
Qed.

Lemma title_lower (w : string) :
  all_lower w = true -> title w = capitalize_first w.
Proof.
  destruct w as [|c w]; simpl; [reflexivity|].
  intros H. apply andb_true_iff in H as [Hc Hw].
  unfold title. simpl. rewrite Hc, (title_from_cased_lower _ Hw).
  reflexivity.
Qed.

Lemma append_empty_r (s : string) : s +:+ EmptyString = s.
Proof.
  induction s as [|c s IH]; [reflexivity|].
  change (String c (s +:+ EmptyString) = String c s). by rewrite IH.
Qed.

End StrFacts.

(** ** [convert_to_camel] *)

Module CamelFacts.
Import Str StrFacts Forecast.

Lemma convert_to_camel_join (w : string) (ws : list string) :
  Forall (fun x => contains "_" x = false) (w :: ws) ->
  convert_to_camel (join "_" (w :: ws)) = w +:+ concat (map title ws).
Proof.
  intros H. unfold convert_to_camel. by rewrite (split_join _ _ _ H).
Qed.

Lemma map_title_lower (ws : list string) :
  Forall (fun x => all_lower x = true) ws ->
  map title ws = map capitalize_first ws.
Proof.
  induction 1 as [|w ws Hw _ IH]; simpl; [reflexivity|].
  by rewrite (title_lower _ Hw), IH.
Qed.

(** C5. [convert_to_camel] applied to components joined by underscores keeps
    the first component and appends the title-cased others; title-casing a
    lower-case word upper-cases its first letter; a key of one component is
    mapped to itself; 'nearest_storm_distance', 'wind_speed', 'summary' and
    'icon' are mapped to 'nearestStormDistance', 'windSpeed', 'summary' and
    'icon'. *)
Theorem convert_to_camel_components (w : string) (ws : list string) :
  Forall (fun x => contains "_" x = false) (w :: ws) ->
  convert_to_camel (join "_" (w :: ws)) = w +:+ concat (map title ws)
  /\ (Forall (fun x => all_lower x = true) ws ->
      convert_to_camel (join "_" (w :: ws))
      = w +:+ concat (map capitalize_first ws))
  /\ (ws = [] -> convert_to_camel w = w)
  /\ convert_to_camel "nearest_storm_distance" = "nearestStormDistance"
  /\ convert_to_camel "wind_speed" = "windSpeed"
  /\ convert_to_camel "summary" = "summary"
  /\ convert_to_camel "icon" = "icon".
Proof.
  intros H. pose proof (convert_to_camel_join w ws H) as Hj.
  split; [exact Hj|]. split.
  { intros Hl. by rewrite Hj, (map_title_lower _ Hl). }
  split.
  { intros ->. simpl in Hj. rewrite Hj. apply append_empty_r. }
  repeat split; reflexivity.
Qed.

Lemma convert_to_camel_components_witness :
  Forall (fun x => contains "_" x = false) ["apparent"; "temperature"]
  /\ (convert_to_camel (join "_" ["apparent"; "temperature"])
      = "apparent" +:+ concat (map title ["temperature"])
      /\ (Forall (fun x => all_lower x = true) ["temperature"] ->
          convert_to_camel (join "_" ["apparent"; "temperature"])
          = "apparent" +:+ concat (map capitalize_first ["temperature"]))
      /\ (["temperature"] = [] -> convert_to_camel "apparent" = "apparent")
      /\ convert_to_camel "nearest_storm_distance" = "nearestStormDistance"
      /\ convert_to_camel "wind_speed" = "windSpeed"
      /\ convert_to_camel "summary" = "summary"
      /\ convert_to_camel "icon" = "icon").
Proof.
  split; [repeat constructor|].
  apply (convert_to_camel_components "apparent" ["temperature"]).
  repeat constructor.
Defined.

End CamelFacts.

(** ** The sensor's pure helpers *)

Module SensorFacts.
Import Forecast.

Lemma py_in_true (x : string) (l : list string) : x ∈ l -> py_in x l = true.
Proof.
  intros H. unfold py_in. apply existsb_exists. exists x.
  split; [by apply list_elem_of_In | apply String.eqb_refl].
Qed.

Lemma py_in_false (x : string) (l : list string) : x ∉ l -> py_in x l = false.
Proof.
  intros H. unfold py_in. apply not_true_is_false. intros Hex.
  apply existsb_exists in Hex as (y & Hy & Heq).
  apply String.eqb_eq in Heq as ->. by apply H, list_elem_of_In.
Qed.

Definition sensor_of_type (t : string) : ForeCastSensor :=
  {| client_name := PyStr DEFAULT_NAME; _name := PyNone; type := t;
     _state := PyNone; _unit_of_measurement := PyNone |}.

Definition point (l : list (string * value)) : DataBlock :=
  {| attrs := list_to_map l |}.

(** C3. With [raw] the attribute read off the "currently" view under the
    camel-case name of the field (0 when absent), [get_currently_state]
    returns [round(raw * 100, 1)] for the three percent fields,
    [round(raw, 1)] for the five rounded fields, and [raw] itself for every
    other field; a humidity of 0.567 gives 56.7 and a temperature of 21.449
    gives 21.4. *)
Theorem get_currently_state_by_field (self : ForeCastSensor)
    (d : option DataBlock) :
  let raw := getattr d (convert_to_camel (type self)) (PyInt 0) in
  (type self ∈ ["precip_probability"; "cloud_cover"; "humidity"] ->
     get_currently_state self d
     = match PyNum.mul100 raw with
       | inr scaled => PyNum.round_1 scaled
       | inl e => inl e
       end
     /\ forall f, raw = PyFloat f ->
          get_currently_state self d
          = inr (PyFloat (PyNum.round1 (f * 100)%float)))
  /\ (type self ∈ ["dew_point"; "temperature"; "apparent_temperature";
                    "pressure"; "ozone"] ->
       get_currently_state self d = PyNum.round_1 raw
       /\ forall f, raw = PyFloat f ->
            get_currently_state self d = inr (PyFloat (PyNum.round1 f)))
  /\ (type self ∉ ["precip_probability"; "cloud_cover"; "humidity"] ->
       type self ∉ ["dew_point"; "temperature"; "apparent_temperature";
                    "pressure"; "ozone"] ->
       get_currently_state self d = inr raw)
  /\ get_currently_state (sensor_of_type "humidity")
        (Some (point [("humidity", PyFloat 0.567)]))
      = inr (PyFloat 56.7)
  /\ get_currently_state (sensor_of_type "temperature")
        (Some (point [("temperature", PyFloat 21.449)]))
      = inr (PyFloat 21.4).
Proof.
  intros raw. split; [|split; [|split]].
  - intros H.
    assert (get_currently_state self d
            = match PyNum.mul100 raw with
              | inr scaled => PyNum.round_1 scaled
              | inl e => inl e
              end) as Hgen.
    { unfold get_currently_state. by rewrite (py_in_true _ _ H). }
    split; [exact Hgen|]. intros f Hf. by rewrite Hgen, Hf.
  - intros H.
    assert (get_currently_state self d = PyNum.round_1 raw) as Hgen.
    { subst raw. destruct self as [cn n t st u]. simpl in H |- *.
      repeat (apply elem_of_cons in H as [->|H]; [reflexivity|]).
      by apply elem_of_nil in H. }
    split; [exact Hgen|]. intros f Hf. by rewrite Hgen, Hf.
  - intros H1 H2. unfold get_currently_state.
    by rewrite (py_in_false _ _ H1), (py_in_false _ _ H2).
  - split; vm_compute; reflexivity.
Qed.

Lemma get_currently_state_by_field_witness :
  "cloud_cover" ∈ ["precip_probability"; "cloud_cover"; "humidity"]
  /\ get_currently_state (sensor_of_type "cloud_cover")
       (Some (point [("cloudCover", PyFloat 0.25)]))
     = inr (PyFloat 25).
Proof.
  split; [set_solver|].
  exact (proj2 (proj1 (get_currently_state_by_field
                         (sensor_of_type "cloud_cover")
                         (Some (point [("cloudCover", PyFloat 0.25)])))
                  ltac:(set_solver))
           0.25%float eq_refl).
Defined.

(** Every row of the table has the display name and the five unit columns. *)
Lemma SENSOR_TYPES_rows (key : string) (row : list value) :
  SENSOR_TYPES !! key = Some row ->
  exists name si us ca uk uk2, row = [name; si; us; ca; uk; uk2].
Proof.
  intros H. unfold SENSOR_TYPES in H.
  apply elem_of_list_to_map_2 in H. unfold SENSOR_TYPES_items in H.
  repeat (apply elem_of_cons in H as [H|H];
          [injection H as _ ->; by do 6 eexists|]).
  by apply elem_of_nil in H.
Qed.

Definition unit_systems : list string := ["si"; "us"; "ca"; "uk"; "uk2"].

Ltac in_list :=
  repeat (apply elem_of_cons; first [left; reflexivity | right]).

Lemma unit_index_of_str (k : string) :
  exists i, unit_index_of (PyStr k) = inr i /\
    (k = "si" -> i = 1%nat) /\ (k = "us" -> i = 2%nat) /\
    (k = "ca" -> i = 3%nat) /\ (k = "uk" -> i = 4%nat) /\
    (k = "uk2" -> i = 5%nat) /\ (k ∉ unit_systems -> i = 1%nat).
Proof.
  eexists. split; [reflexivity|].
  repeat split; try (intros ->; reflexivity).
  intros H. unfold unit_systems in H. simpl.
  rewrite !lookup_insert_ne, lookup_empty by (intros <-; apply H; in_list).
  reflexivity.
Qed.

Lemma update_unit_of_measurement_run (self : ForeCastSensor) (st : State)
    (row : list value) (i : nat) (u : value) :
  SENSOR_TYPES !! type self = Some row ->
  unit_index_of (unit_system (cache st)) = inr i ->
  row !! i = Some u ->
  update_unit_of_measurement (self, st)
  = Ok tt (set_unit_of_measurement u self, st).
Proof.
  intros Hrow Hi Hu. unfold update_unit_of_measurement.
  unfold mbind, M_bind, bind, get, lift, dict_get, list_get, on_self, modify.
  cbn [fst snd]. rewrite Hi, Hrow, Hu. reflexivity.
Qed.

(** The column picked for a unit-system value that can be looked up: between
    1 and 5, that of the unit system when it is one of the five, else 1. *)
Lemma unit_index_of_hashable (us : value) :
  (forall l, us <> PyList l) ->
  exists i, unit_index_of us = inr i
    /\ (1 <= i <= 5)%nat
    /\ (us = PyStr "si" -> i = 1%nat) /\ (us = PyStr "us" -> i = 2%nat)
    /\ (us = PyStr "ca" -> i = 3%nat) /\ (us = PyStr "uk" -> i = 4%nat)
    /\ (us = PyStr "uk2" -> i = 5%nat)
    /\ ((forall k, k ∈ unit_systems -> us <> PyStr k) -> i = 1%nat).
Proof.
  intros Hscalar.
  destruct us as [| b | n | f | k | l];
    try (exists 1%nat; split; [reflexivity|];
         split; [lia|]; repeat split; (discriminate || reflexivity)).
  - destruct (unit_index_of_str k) as (i & Hi & Hsi & Hu & Hca & Huk & Huk2 & Hd).
    exists i. split; [exact Hi|].
    split.
    { destruct (decide (k = "si")) as [E|Nsi]; [rewrite (Hsi E); lia|].
      destruct (decide (k = "us")) as [E|Nus]; [rewrite (Hu E); lia|].
      destruct (decide (k = "ca")) as [E|Nca]; [rewrite (Hca E); lia|].
      destruct (decide (k = "uk")) as [E|Nuk]; [rewrite (Huk E); lia|].
      destruct (decide (k = "uk2")) as [E|Nuk2]; [rewrite (Huk2 E); lia|].
      rewrite Hd; [lia|]. unfold unit_systems. rewrite !not_elem_of_cons.
      repeat split; auto. apply not_elem_of_nil. }
    split; [intros [= E]; exact (Hsi E)|].
    split; [intros [= E]; exact (Hu E)|].
    split; [intros [= E]; exact (Hca E)|].
    split; [intros [= E]; exact (Huk E)|].
    split; [intros [= E]; exact (Huk2 E)|].
    intros Hn. apply Hd. intros Hin. exact (Hn k Hin eq_refl).
  - exfalso. by apply (Hscalar l).
Qed.

(** A list cannot be a dictionary key: the lookup of the column raises, and
    the sensor is as it was. *)
Lemma update_unit_of_measurement_unhashable (self : ForeCastSensor)
    (st : State) (l : list value) :
  unit_system (cache st) = PyList l ->
  update_unit_of_measurement (self, st)
  = Raise (TypeError "unhashable type: 'list'") (self, st).
Proof.
  intros Hus. unfold update_unit_of_measurement.
  unfold mbind, M_bind, bind, get, lift. cbn [fst snd]. rewrite Hus.
  reflexivity.
Qed.

(** C4. For a sensor whose field key is in the table, with [row] its entry.
    When the unit system the cache reports can be a dictionary key (a
    string, a number, a boolean or [None]), [update_unit_of_measurement]
    returns, the sensor's [_unit_of_measurement] is afterwards column 1 of
    the row for 'si', 2 for 'us', 3 for 'ca', 4 for 'uk', 5 for 'uk2', and
    column 1 for every other such value; the sensor's other fields and the
    cache are as before.  When the unit system is a list, the call raises
    [TypeError] and changes nothing. *)
Theorem update_unit_of_measurement_column (self : ForeCastSensor)
    (st : State) (row : list value) :
  SENSOR_TYPES !! type self = Some row ->
  ((forall l, unit_system (cache st) <> PyList l) ->
   exists self',
     update_unit_of_measurement (self, st) = Ok tt (self', st)
     /\ type self' = type self /\ client_name self' = client_name self
     /\ _name self' = _name self /\ _state self' = _state self
     /\ (unit_system (cache st) = PyStr "si" ->
         row !! 1%nat = Some (_unit_of_measurement self'))
     /\ (unit_system (cache st) = PyStr "us" ->
         row !! 2%nat = Some (_unit_of_measurement self'))
     /\ (unit_system (cache st) = PyStr "ca" ->
         row !! 3%nat = Some (_unit_of_measurement self'))
     /\ (unit_system (cache st) = PyStr "uk" ->
         row !! 4%nat = Some (_unit_of_measurement self'))
     /\ (unit_system (cache st) = PyStr "uk2" ->
         row !! 5%nat = Some (_unit_of_measurement self'))
     /\ ((forall k, k ∈ unit_systems -> unit_system (cache st) <> PyStr k) ->
         row !! 1%nat = Some (_unit_of_measurement self')))
  /\ (forall l, unit_system (cache st) = PyList l ->
      exists msg,
        update_unit_of_measurement (self, st) = Raise (TypeError msg) (self, st)).
Proof.
  intros Hrow. split.
  - intros Hscalar.
    destruct (unit_index_of_hashable _ Hscalar)
      as (i & Hi & Hrange & Hsi & Hu & Hca & Huk & Huk2 & Hd).
    destruct (SENSOR_TYPES_rows _ _ Hrow)
      as (name & si & us & ca & uk & uk2 & Erow).
    assert (exists u, row !! i = Some u) as [u Hcol].
    { rewrite Erow.
      destruct i as [|[|[|[|[|[|i]]]]]]; try lia; eexists; reflexivity. }
    exists (set_unit_of_measurement u self).
    split; [exact (update_unit_of_measurement_run _ _ _ _ _ Hrow Hi Hcol)|].
    change (_unit_of_measurement (set_unit_of_measurement u self)) with u.
    do 4 (split; [reflexivity|]).
    split; [intros E; by rewrite <- (Hsi E)|].
    split; [intros E; by rewrite <- (Hu E)|].
    split; [intros E; by rewrite <- (Hca E)|].
    split; [intros E; by rewrite <- (Huk E)|].
    split; [intros E; by rewrite <- (Huk2 E)|].
    intros E. by rewrite <- (Hd E).
  - intros l Hus. eexists.
    exact (update_unit_of_measurement_unhashable _ _ _ Hus).
Qed.

(** A cache object as [__init__] leaves it before its first fetch, with a
    chosen unit-system flag, in an untouched world. *)
Definition blank_cache (us : value) : ForeCastData :=
  {| _api_key := PyStr "key"; latitude := PyFloat 52; longitude := PyFloat 5;
     units := PyStr "si"; data := None; unit_system := us;
     data_currently := None; data_minutely := None; data_hourly := None;
     data_daily := None; _throttle := ∅ |}.

Definition blank_state (us : value) : State :=
  {| world := new_world; cache := blank_cache us |}.

Lemma update_unit_of_measurement_column_witness :
  SENSOR_TYPES !! "wind_speed"
  = Some [PyStr "Wind Speed";
          PyStr "m/s"; PyStr "mph"; PyStr "km/h"; PyStr "mph"; PyStr "mph"]
  /\ (forall l, PyStr "ca" <> PyList l)
  /\ exists self',
       update_unit_of_measurement
         (sensor_of_type "wind_speed", blank_state (PyStr "ca"))
       = Ok tt (self', blank_state (PyStr "ca"))
       /\ _unit_of_measurement self' = PyStr "km/h".
Proof.
  split; [reflexivity|]. split; [discriminate|].
  destruct (proj1 (update_unit_of_measurement_column
                     (sensor_of_type "wind_speed") (blank_state (PyStr "ca"))
                     [PyStr "Wind Speed"; PyStr "m/s"; PyStr "mph";
                      PyStr "km/h"; PyStr "mph"; PyStr "mph"]
                     eq_refl) ltac:(discriminate))
    as (self' & Hrun & _ & _ & _ & _ & _ & _ & Hca & _).
  exists self'. split; [exact Hrun|].
  specialize (Hca eq_refl). by injection Hca.
Defined.

(** C4 as the specification words it: for every value of the unit system,
    the call returns and leaves in [_unit_of_measurement] the column of the
    unit system, column 1 when the value is none of the five. *)
Definition unit_column_for_every_value : Prop :=
  forall (self : ForeCastSensor) (st : State) (row : list value),
    SENSOR_TYPES !! type self = Some row ->
    exists self',
      update_unit_of_measurement (self, st) = Ok tt (self', st)
      /\ (unit_system (cache st) = PyStr "si" ->
          row !! 1%nat = Some (_unit_of_measurement self'))
      /\ (unit_system (cache st) = PyStr "us" ->
          row !! 2%nat = Some (_unit_of_measurement self'))
      /\ (unit_system (cache st) = PyStr "ca" ->
          row !! 3%nat = Some (_unit_of_measurement self'))
      /\ (unit_system (cache st) = PyStr "uk" ->
          row !! 4%nat = Some (_unit_of_measurement self'))
      /\ (unit_system (cache st) = PyStr "uk2" ->
          row !! 5%nat = Some (_unit_of_measurement self'))
      /\ ((forall k, k ∈ unit_systems -> unit_system (cache st) <> PyStr k) ->
          row !! 1%nat = Some (_unit_of_measurement self')).

(** With the unit system an empty list, which is none of the five, the
    wind-speed sensor gets no unit at all: the call raises [TypeError]. *)
Lemma unit_system_list_raises : ~ unit_column_for_every_value.
Proof.
  intros H.
  destruct (H (sensor_of_type "wind_speed") (blank_state (PyList []))
              [PyStr "Wind Speed"; PyStr "m/s"; PyStr "mph";
               PyStr "km/h"; PyStr "mph"; PyStr "mph"] eq_refl)
    as (self' & Hrun & _).
  rewrite (update_unit_of_measurement_unhashable
             (sensor_of_type "wind_speed") (blank_state (PyList [])) []
             eq_refl) in Hrun.
  discriminate Hrun.
Qed.

End SensorFacts.

(** ** The garage door *)

Module GarageDoorFacts.
Import GarageDoor.

Lemma is_closed_loop_find (vs : list ZWaveValue) :
  is_closed_loop vs
  = match List.find (fun v => (command_class v =? 37) && (index v =? 0)) vs with
    | Some v => data v
    | None => PyNone
    end.
Proof.
  induction vs as [|v vs IH]; simpl; [reflexivity|].
  destruct ((command_class v =? 37) && (index v =? 0)); [reflexivity|exact IH].
Qed.

Lemma find_filter_class (vs : list ZWaveValue) :
  List.find (fun v => (command_class v =? 37) && (index v =? 0))
    (List.filter (fun v => command_class v =? 37) vs)
  = List.find is_door_switch vs.
Proof.
  unfold is_door_switch, COMMAND_CLASS_SWITCH_BINARY.
  induction vs as [|v vs IH]; simpl; [reflexivity|].
  destruct (command_class v =? 37) eqn:Hc; simpl; rewrite ?Hc; simpl.
  - destruct (index v =? 0); [reflexivity|exact IH].
  - exact IH.
Qed.

Lemma is_closed_find (self : ZwaveGarageDoor) :
  is_closed self
  = match List.find is_door_switch (values (_node self)) with
    | Some v => data v
    | None => PyNone
    end.
Proof.
  unfold is_closed, get_values, COMMAND_CLASS_SWITCH_BINARY.
  by rewrite is_closed_loop_find, find_filter_class.
Qed.

(** C6. [is_closed] returns the payload of the value of the bound node that
    has command class 0x25 and index 0 (of the first one in the node's order,
    should several exist), and [None] when the node has no such value. *)
Theorem is_closed_reports_switch (self : ZwaveGarageDoor) :
  is_closed self
  = match List.find is_door_switch (values (_node self)) with
    | Some v => data v
    | None => PyNone
    end
  /\ (forall v,
        v ∈ values (_node self) ->
        command_class v = 37 -> index v = 0 ->
        (forall v', v' ∈ values (_node self) ->
                    command_class v' = 37 -> index v' = 0 -> v' = v) ->
        is_closed self = data v)
  /\ ((forall v, v ∈ values (_node self) ->
                 ~ (command_class v = 37 /\ index v = 0)) ->
      is_closed self = PyNone).
Proof.
  pose proof (is_closed_find self) as Hfind.
  split; [exact Hfind|]. split.
  - intros v Hin Hc Hi Huniq. rewrite Hfind.
    destruct (List.find is_door_switch (values (_node self))) as [v'|] eqn:Hf.
    + apply find_some in Hf as [Hin' Hsw].
      unfold is_door_switch, COMMAND_CLASS_SWITCH_BINARY in Hsw.
      apply andb_true_iff in Hsw as [Hc' Hi'].
      apply Z.eqb_eq in Hc', Hi'.
      by rewrite (Huniq v' (proj2 (list_elem_of_In _ _) Hin') Hc' Hi').
    + exfalso.
      pose proof (find_none _ _ Hf v (proj1 (list_elem_of_In _ _) Hin)) as Hn.
      unfold is_door_switch, COMMAND_CLASS_SWITCH_BINARY in Hn.
      rewrite Hc, Hi in Hn. discriminate.
  - intros Hnone. rewrite Hfind.
    destruct (List.find is_door_switch (values (_node self))) as [v'|] eqn:Hf;
      [|reflexivity].
    exfalso. apply find_some in Hf as [Hin' Hsw].
    unfold is_door_switch, COMMAND_CLASS_SWITCH_BINARY in Hsw.
    apply andb_true_iff in Hsw as [Hc' Hi'].
    apply Z.eqb_eq in Hc', Hi'.
    by apply (Hnone v' (proj2 (list_elem_of_In _ _) Hin')).
Qed.

Definition door_switch : ZWaveValue :=
  {| value_id := 7205; node := 4; command_class := 37; index := 0;
     data := PyBool true |}.

Definition door_battery : ZWaveValue :=
  {| value_id := 7301; node := 4; command_class := 128; index := 0;
     data := PyInt 90 |}.

Definition door : ZwaveGarageDoor :=
  {| _value := door_switch;
     _node := {| node_id := 4; values := [door_battery; door_switch] |} |}.

Lemma is_closed_reports_switch_witness :
  door_switch ∈ values (_node door)
  /\ is_closed door = PyBool true.
Proof.
  split; [set_solver|].
  refine (proj1 (proj2 (is_closed_reports_switch door))
            door_switch _ eq_refl eq_refl _).
  - set_solver.
  - intros v' Hin Hc Hi. simpl in Hin.
    apply elem_of_cons in Hin as [->|Hin]; [discriminate Hc|].
    apply elem_of_cons in Hin as [->|Hin]; [reflexivity|].
    by apply elem_of_nil in Hin.
Defined.

(** C7. [value_changed] asks the host for a state refresh exactly when the
    changed value sits on the node of the bound value: an event from another
    node has no effect at all, and on the bound node every value, whatever
    its id, class, index or payload, triggers the refresh. *)
Theorem value_changed_refreshes_iff_same_node (self : ZwaveGarageDoor)
    (v : ZWaveValue) :
  (UpdateHaState true ∈ value_changed self v <-> node (_value self) = node v)
  /\ (node (_value self) <> node v -> value_changed self v = [])
  /\ (forall id cc idx payload,
        UpdateHaState true ∈
          value_changed self
            {| value_id := id; node := node (_value self);
               command_class := cc; index := idx; data := payload |}).
Proof.
  unfold value_changed. repeat split.
  - destruct (Z.eqb_spec (node (_value self)) (node v)) as [Heq|Hne];
      [done|]. intros Hin. by apply elem_of_nil in Hin.
  - intros ->. rewrite Z.eqb_refl. set_solver.
  - intros Hne. by destruct (Z.eqb_spec (node (_value self)) (node v)).
  - intros id cc idx payload. simpl. rewrite Z.eqb_refl. set_solver.
Qed.

Lemma value_changed_refreshes_iff_same_node_witness :
  node (_value door) <> node
    {| value_id := 7205; node := 9; command_class := 37; index := 0;
       data := PyBool false |}
  /\ value_changed door
       {| value_id := 7205; node := 9; command_class := 37; index := 0;
          data := PyBool false |} = [].
Proof.
  split; [discriminate|].
  apply (proj1 (proj2 (value_changed_refreshes_iff_same_node door _))).
  discriminate.
Defined.

End GarageDoorFacts.

(** ** The throttled cache *)

Module CacheFacts.
Import Forecast.

(** The four failures of the outbound call that [update] turns into a
    [ValueError]: connection error, HTTP error, timeout, invalid response. *)
Definition fetch_failure (e : exn) : Prop :=
  (exists msg, e = ConnectError msg) \/ (exists msg, e = HTTPError msg)
  \/ (exists msg, e = Timeout msg) \/ (exists msg cause, e = ValueError msg cause).

Definition fetch_failureb (e : exn) : bool :=
  match e with
  | ConnectError _ | HTTPError _ | Timeout _ | ValueError _ _ => true
  | _ => false
  end.

Lemma fetch_failure_reflect (e : exn) :
  fetch_failure e <-> fetch_failureb e = true.
Proof.
  unfold fetch_failure. split.
  - intros [[m ->]|[[m ->]|[[m ->]|[m [c ->]]]]]; reflexivity.
  - destruct e; simpl; try discriminate; eauto 6.
Qed.

(** The request a cache object sends. *)
Definition request_of (c : ForeCastData) : Request :=
  {| req_api_key := _api_key c; req_latitude := latitude c;
     req_longitude := longitude c; req_units := units c |}.

(** Whether the throttle of method [m] holds back a call made at [t]. *)
Definition limited (c : ForeCastData) (m : method) (t : Z) : bool :=
  match _throttle c !! m with
  | Some last => t - last <? MIN_TIME_BETWEEN_UPDATES
  | None => false
  end.

Definition touch (m : method) (t : Z) (c : ForeCastData) : ForeCastData :=
  set_throttle (<[m := t]> (_throttle c)) c.

(** Sample payloads and environments for the examples below. *)
Definition block (l : list (string * value)) : DataBlock :=
  {| attrs := list_to_map l |}.

Definition payload (reported_units : string) (daily_summary : string)
  : ForecastIO :=
  {| json := {[ "flags" := {[ "units" := PyStr reported_units ]} ]};
     currently := block [("temperature", PyFloat 21.449);
                         ("humidity", PyFloat 0.567)];
     minutely := block [("summary", PyStr "Clear for the hour.")];
     hourly := block [("summary", PyStr "Partly cloudy.")];
     daily := block [("summary", PyStr daily_summary)] |}.

(** A service that always answers, echoing 'us' whatever was asked for, and
    a clock that advances one second per reading. *)
Definition env_up : Env :=
  {| utcnow := fun k => timedelta_seconds (Z.of_nat k);
     load_forecast := fun _ _ => inr (payload "us" "Rain") |}.

(** A service that cannot be reached. *)
Definition env_down : Env :=
  {| utcnow := fun k => timedelta_seconds (Z.of_nat k);
     load_forecast := fun _ _ => inl (ConnectError "unreachable") |}.

Definition fresh_state : State := SensorFacts.blank_state PyNone.

Section WithEnv.

Variable env : Env.

(** The clock value the next call will read, and the outcome the next
    outbound call will have. *)
Definition next_time (st : State) : Z := utcnow env (clock_reads (world st)).

Definition next_response (st : State) : exn + ForecastIO :=
  load_forecast env (length (requests (world st))) (request_of (cache st)).

Lemma Throttle_run (m : method) (body : M State unit) (st : State) :
  Throttle env MIN_TIME_BETWEEN_UPDATES m body st
  = let t := next_time st in
    let st1 := with_world (tick t) st in
    if limited (cache st) m t then Ok tt st1
    else match body st1 with
         | Ok _ st2 => Ok tt (with_cache (touch m t) st2)
         | Raise e st2 => Raise e st2
         end.
Proof.
  unfold Throttle, limited, next_time, mbind, M_bind, bind, read_clock, gets.
  simpl. destruct (_throttle (cache st) !! m) as [last|]; simpl.
  - destruct (_ <? _); [reflexivity|].
    destruct (body _) as [[] st2|e st2]; reflexivity.
  - destruct (body _) as [[] st2|e st2]; reflexivity.
Qed.

Definition wrap (e : exn) : exn :=
  ValueError "Unable to init Forecast.io. - %s" (Some e).

Lemma update_body_run (st : State) :
  update_body env st
  = let st1 := with_world (sent (request_of (cache st))) st in
    match next_response st with
    | inl e => Raise (if fetch_failureb e then wrap e else e) st1
    | inr p =>
        let st2 :=
          with_world (stamped m_update (Some (now (world st1))))
            (with_cache (set_data p) st1) in
        match json p !! "flags" with
        | None => Raise (KeyError "flags") st2
        | Some flags =>
            match flags !! "units" with
            | None => Raise (KeyError "units") st2
            | Some u => Ok tt (with_cache (set_unit_system u) st2)
            end
        end
    end.
Proof.
  unfold update_body, next_response, request_of, forecastio_load_forecast.
  unfold mbind, M_bind, bind, try_except, gets, modify, lift, dict_get, raise.
  simpl. destruct (load_forecast env _ _) as [e|p]; simpl.
  - destruct e; reflexivity.
  - destruct (json p !! "flags") as [flags|]; simpl; [|reflexivity].
    destruct (flags !! "units"); reflexivity.
Qed.

Lemma extract_body_run (m : method) (view : ForecastIO -> DataBlock)
    (store : DataBlock -> ForeCastData -> ForeCastData) (st : State) :
  extract_body m view store st
  = match data (cache st) with
    | Some p =>
        Ok tt (with_world (stamped m (snapshot_of (world st) !! m_update))
                 (with_cache (store (view p)) st))
    | None =>
        Raise (AttributeError "'NoneType' object has no such attribute") st
    end.
Proof.
  unfold extract_body, mbind, M_bind, bind, gets, modify, raise. simpl.
  destruct (data (cache st)); reflexivity.
Qed.

Lemma update_run (st : State) :
  update env st
  = let t := next_time st in
    let st1 := with_world (tick t) st in
    if limited (cache st) m_update t then Ok tt st1
    else match update_body env st1 with
         | Ok _ st2 => Ok tt (with_cache (touch m_update t) st2)
         | Raise e st2 => Raise e st2
         end.
Proof. apply Throttle_run. Qed.

Lemma update_fetch_failed (st : State) (e : exn) :
  limited (cache st) m_update (next_time st) = false ->
  next_response st = inl e ->
  update env st
  = Raise (if fetch_failureb e then wrap e else e)
      (with_world (sent (request_of (cache st)))
         (with_world (tick (next_time st)) st)).
Proof.
  intros Hlim Hresp. rewrite update_run. simpl. rewrite Hlim.
  rewrite update_body_run. simpl.
  change (next_response (with_world (tick (next_time st)) st))
    with (next_response st).
  by rewrite Hresp.
Qed.

Lemma update_fetched (st : State) (p : ForecastIO)
    (flags : gmap string value) (u : value) :
  limited (cache st) m_update (next_time st) = false ->
  next_response st = inr p ->
  json p !! "flags" = Some flags ->
  flags !! "units" = Some u ->
  update env st
  = Ok tt
      (with_cache (touch m_update (next_time st))
         (with_cache (set_unit_system u)
            (with_world (stamped m_update (Some (next_time st)))
               (with_cache (set_data p)
                  (with_world (sent (request_of (cache st)))
                     (with_world (tick (next_time st)) st)))))).
Proof.
  intros Hlim Hresp Hflags Hunits. rewrite update_run. simpl. rewrite Hlim.
  rewrite update_body_run. simpl.
  change (next_response (with_world (tick (next_time st)) st))
    with (next_response st).
  by rewrite Hresp, Hflags, Hunits.
Qed.


(** What a raising [update] tells about the call. *)
Lemma update_raise_inv (st st' : State) (e : exn) :
  update env st = Raise e st' ->
  limited (cache st) m_update (next_time st) = false
  /\ ((exists e0, next_response st = inl e0
                  /\ e = (if fetch_failureb e0 then wrap e0 else e0)
                  /\ cache st' = cache st)
      \/ (exists p k, next_response st = inr p /\ e = KeyError k)).
Proof.
  rewrite update_run. simpl.
  destruct (limited (cache st) m_update (next_time st)); [discriminate|].
  split; [reflexivity|]. revert H. rewrite update_body_run. simpl.
  change (next_response (with_world (tick (next_time st)) st))
    with (next_response st).
  destruct (next_response st) as [e0|p].
  - intros [= <- <-]. left. exists e0. by repeat split.
  - right. exists p.
    destruct (json p !! "flags") as [flags|]; [|injection H as <- _; eauto].
    destruct (flags !! "units"); [discriminate|injection H as <- _; eauto].
Qed.

(** C9. A call of [update] raises a [ValueError] exactly when the call is
    let through to the service and the outbound fetch fails with a
    connection error, an HTTP error, a timeout or a value error, and the
    [ValueError] raised then carries that failure; when the fetch succeeds
    the payload is stored and the unit-system flag the service reports is
    recorded, whatever unit system was asked for (a service asked for 'si'
    may answer 'us'). *)
Theorem update_raises_value_error_iff (st : State) :
  ((exists msg cause, raised (update env st) = Some (ValueError msg cause))
   <-> limited (cache st) m_update (next_time st) = false
       /\ exists e, next_response st = inl e /\ fetch_failure e)
  /\ (forall e,
        limited (cache st) m_update (next_time st) = false ->
        next_response st = inl e -> fetch_failure e ->
        raised (update env st)
        = Some (ValueError "Unable to init Forecast.io. - %s" (Some e)))
  /\ (forall p flags u,
        limited (cache st) m_update (next_time st) = false ->
        next_response st = inr p ->
        json p !! "flags" = Some flags -> flags !! "units" = Some u ->
        exists st',
          update env st = Ok tt st'
          /\ data (cache st') = Some p
          /\ unit_system (cache st') = u
          /\ units (cache st') = units (cache st))
  /\ (exists st',
        update env_up fresh_state = Ok tt st'
        /\ units (cache st') = PyStr "si"
        /\ unit_system (cache st') = PyStr "us").
Proof.
  split; [split|split; [|split]].
  - intros (msg & cause & Hr).
    destruct (update env st) as [[] st'|e st'] eqn:Hup; [discriminate|].
    injection Hr as ->.
    destruct (update_raise_inv _ _ _ Hup) as [Hlim [(e0 & Hresp & He & _)|Hk]].
    + split; [exact Hlim|]. exists e0. split; [exact Hresp|].
      apply fetch_failure_reflect.
      destruct (fetch_failureb e0) eqn:Hf; [reflexivity|].
      subst e0. discriminate Hf.
    + destruct Hk as (p & k & _ & Hk). discriminate Hk.
  - intros (Hlim & e & Hresp & Hf).
    apply fetch_failure_reflect in Hf.
    rewrite (update_fetch_failed _ _ Hlim Hresp), Hf. simpl. eauto.
  - intros e Hlim Hresp Hf. apply fetch_failure_reflect in Hf.
    by rewrite (update_fetch_failed _ _ Hlim Hresp), Hf.
  - intros p flags u Hlim Hresp Hflags Hunits.
    eexists. split; [exact (update_fetched _ _ _ _ Hlim Hresp Hflags Hunits)|].
    by repeat split.
  - eexists. split; [vm_compute; reflexivity|]. by split.
Qed.

(** C10. When [update] fails because the fetch raised, and so in particular
    whenever it raises a [ValueError], the cache object is exactly what it
    was before the call: the payload, the unit-system flag and everything
    else keep their values. *)
Theorem update_failure_keeps_cache (st st' : State) (e : exn) :
  update env st = Raise e st' ->
  ((exists e0, next_response st = inl e0) \/ is_ValueError e = true) ->
  cache st' = cache st
  /\ data (cache st') = data (cache st)
  /\ unit_system (cache st') = unit_system (cache st).
Proof.
  intros Hup Hcause.
  assert (cache st' = cache st) as Hc; [|by rewrite Hc].
  destruct (update_raise_inv _ _ _ Hup) as [_ [(e0 & _ & _ & Hc)|Hk]];
    [exact Hc|].
  destruct Hk as (p & k & Hresp & ->).
  destruct Hcause as [[e0 He0]|Hv]; [congruence|discriminate].
Qed.

End WithEnv.

Lemma update_raises_value_error_iff_witness :
  limited (cache fresh_state) m_update (next_time env_down fresh_state) = false
  /\ next_response env_down fresh_state = inl (ConnectError "unreachable")
  /\ fetch_failure (ConnectError "unreachable")
  /\ raised (update env_down fresh_state)
     = Some (ValueError "Unable to init Forecast.io. - %s"
               (Some (ConnectError "unreachable"))).
Proof.
  assert (fetch_failure (ConnectError "unreachable")) as Hf
    by (left; by eexists).
  split; [reflexivity|]. split; [reflexivity|]. split; [exact Hf|].
  exact (proj1 (proj2 (update_raises_value_error_iff env_down fresh_state))
           (ConnectError "unreachable") eq_refl eq_refl Hf).
Defined.

(** A cache that holds yesterday's forecast when the service goes down. *)
Definition stale_state : State :=
  {| world := new_world;
     cache := set_unit_system (PyStr "si")
                (set_data (payload "si" "Sunny")
                   (SensorFacts.blank_cache PyNone)) |}.

Lemma update_failure_keeps_cache_witness :
  exists st',
    update env_down stale_state
    = Raise (ValueError "Unable to init Forecast.io. - %s"
               (Some (ConnectError "unreachable"))) st'
    /\ cache st' = cache stale_state
    /\ data (cache st') = Some (payload "si" "Sunny")
    /\ unit_system (cache st') = PyStr "si".
Proof.
  eexists. split; [vm_compute; reflexivity|].
  destruct (update_failure_keeps_cache env_down stale_state _ _ eq_refl
              (or_intror eq_refl)) as (Hc & Hd & Hu).
  split; [exact Hc|]. split; [exact Hd|exact Hu].
Defined.

End CacheFacts.

(** ** One throttle per method *)

Module ThrottleFacts.
Import Forecast CacheFacts.

Section WithEnv.

Variable env : Env.

(** What a returning [update] that was let through has done. *)
Lemma update_ok_inv (st st1 : State) :
  limited (cache st) m_update (next_time env st) = false ->
  update env st = Ok tt st1 ->
  exists p flags u,
    next_response env st = inr p
    /\ json p !! "flags" = Some flags /\ flags !! "units" = Some u
    /\ st1 = with_cache (touch m_update (next_time env st))
               (with_cache (set_unit_system u)
                  (with_world (stamped m_update (Some (next_time env st)))
                     (with_cache (set_data p)
                        (with_world (sent (request_of (cache st)))
                           (with_world (tick (next_time env st)) st))))).
Proof.
  intros Hlim Hup.
  destruct (next_response env st) as [e|p] eqn:Hresp.
  { rewrite (update_fetch_failed _ _ _ Hlim Hresp) in Hup. discriminate. }
  destruct (json p !! "flags") as [flags|] eqn:Hflags.
  - destruct (flags !! "units") as [u|] eqn:Hunits.
    + rewrite (update_fetched _ _ _ _ _ Hlim Hresp Hflags Hunits) in Hup.
      injection Hup as <-. by exists p, flags, u.
    + rewrite update_run in Hup. simpl in Hup. rewrite Hlim in Hup.
      rewrite update_body_run in Hup. simpl in Hup.
      change (next_response env (with_world (tick (next_time env st)) st))
        with (next_response env st) in Hup.
      rewrite Hresp, Hflags, Hunits in Hup. discriminate.
  - rewrite update_run in Hup. simpl in Hup. rewrite Hlim in Hup.
    rewrite update_body_run in Hup. simpl in Hup.
    change (next_response env (with_world (tick (next_time env st)) st))
      with (next_response env st) in Hup.
    rewrite Hresp, Hflags in Hup. discriminate.
Qed.


End WithEnv.

End ThrottleFacts.

(** ** Platform setup *)

Module SetupFacts.
Import Forecast CacheFacts.

Section WithEnv.

Variable env : Env.
Variables CONF_API_KEY TEMP_CELSIUS : string.

(** The request the first fetch of [setup_platform] sends. *)
Definition setup_request (hass : HassConfig) (config : gmap string value)
  : Request :=
  {| req_api_key := default PyNone (config !! CONF_API_KEY);
     req_latitude := hass_latitude hass;
     req_longitude := hass_longitude hass;
     req_units :=
       match config !! "units" with
       | Some u => u
       | None =>
           if eq_str (hass_temperature_unit hass) TEMP_CELSIUS
           then PyStr "si" else PyStr "us"
       end |}.

Lemma is_None_false (v : value) : v <> PyNone -> is_None v = false.
Proof. by destruct v. Qed.

Lemma validate_config_missing (config : gmap string value) (w : World) :
  config !! CONF_API_KEY = None ->
  validate_config config [CONF_API_KEY] w
  = Ok false (logged (LogMissingItems [CONF_API_KEY]) w).
Proof.
  intros H. unfold validate_config. simpl. rewrite H.
  rewrite bool_decide_eq_false_2 by (by intros [? ?]). reflexivity.
Qed.

Lemma validate_config_present (config : gmap string value) (w : World)
    (key : value) :
  config !! CONF_API_KEY = Some key ->
  validate_config config [CONF_API_KEY] w = Ok true w.
Proof.
  intros H. unfold validate_config. simpl. rewrite H.
  rewrite bool_decide_eq_true_2 by eauto. reflexivity.
Qed.

(** C8. [setup_platform] returns [False] without calling [add_devices], and
    without constructing a sensor, when the latitude or the longitude of the
    host configuration is unset, when the API key is missing from the platform
    configuration, and when the initial fetch fails so that the cache raises
    a [ValueError]; all it does in these cases is log the error (and, in the
    last one, read the clock once and send the one request). *)
Theorem setup_platform_failures (hass : HassConfig)
    (config : gmap string value) (w : World) :
  (hass_latitude hass = PyNone \/ hass_longitude hass = PyNone ->
     exists w',
       setup_platform env CONF_API_KEY TEMP_CELSIUS hass config w
       = Ok (PyBool false) w'
       /\ added w' = added w /\ requests w' = requests w
       /\ clock_reads w' = clock_reads w)
  /\ (hass_latitude hass <> PyNone -> hass_longitude hass <> PyNone ->
      config !! CONF_API_KEY = None ->
      exists w',
        setup_platform env CONF_API_KEY TEMP_CELSIUS hass config w
        = Ok (PyBool false) w'
        /\ added w' = added w /\ requests w' = requests w
        /\ clock_reads w' = clock_reads w)
  /\ (forall key e,
        hass_latitude hass <> PyNone -> hass_longitude hass <> PyNone ->
        config !! CONF_API_KEY = Some key ->
        load_forecast env (length (requests w)) (setup_request hass config)
        = inl e ->
        fetch_failure e ->
        exists w',
          setup_platform env CONF_API_KEY TEMP_CELSIUS hass config w
          = Ok (PyBool false) w'
          /\ added w' = added w
          /\ requests w' = (requests w ++ [setup_request hass config])%list
          /\ clock_reads w' = S (clock_reads w)
          /\ errors w' = (errors w ++ [LogException (wrap e)])%list).
Proof.
  split; [|split].
  - intros Hloc. eexists. split.
    + unfold setup_platform.
      replace (is_None (hass_latitude hass) || is_None (hass_longitude hass))
        with true; [reflexivity|].
      destruct Hloc as [-> | ->]; simpl; [reflexivity|].
      by rewrite orb_true_r.
    + by repeat split.
  - intros Hlat Hlon Hkey. eexists. split.
    + unfold setup_platform.
      rewrite (is_None_false _ Hlat), (is_None_false _ Hlon). simpl.
      unfold mbind, M_bind, bind.
      by rewrite (validate_config_missing _ _ Hkey).
    + by repeat split.
  - intros key e Hlat Hlon Hkey Hresp Hfail.
    apply fetch_failure_reflect in Hfail.
    eexists. split.
    + unfold setup_platform.
      rewrite (is_None_false _ Hlat), (is_None_false _ Hlon). simpl.
      unfold mbind, M_bind, bind.
      rewrite (validate_config_present _ _ _ Hkey). simpl.
      unfold try_except, ForeCastData_init, mbind, M_bind, bind, run_on.
      rewrite update_fetch_failed with (e := e);
        [|reflexivity|exact Hresp].
      rewrite Hfail. simpl. reflexivity.
    + by repeat split.
Qed.

End WithEnv.

Definition hass_nowhere : HassConfig :=
  {| hass_latitude := PyNone; hass_longitude := PyFloat 5;
     hass_temperature_unit := PyStr "C" |}.

Definition platform_config : gmap string value :=
  list_to_map [("api_key", PyStr "key");
               ("monitored_conditions",
                PyList [PyStr "temperature"; PyStr "daily_summary"])].

Lemma setup_platform_failures_witness :
  (hass_latitude hass_nowhere = PyNone \/ hass_longitude hass_nowhere = PyNone)
  /\ exists w',
       setup_platform env_up "api_key" "C" hass_nowhere platform_config
         new_world
       = Ok (PyBool false) w'
       /\ added w' = [] /\ requests w' = [] /\ clock_reads w' = 0%nat.
Proof.
  split; [by left|].
  exact (proj1 (setup_platform_failures env_up "api_key" "C" hass_nowhere
                  platform_config new_world) (or_introl eq_refl)).
Defined.

End SetupFacts.

(** ** Freshness of what a sensor reads *)

Module FreshnessFacts.
Import Forecast CacheFacts ThrottleFacts.

(** The throttled method behind the view a sensor of a given type reads. *)
Definition view_method (ty : string) : method :=
  if String.eqb ty "minutely_summary" then m_update_minutely
  else if String.eqb ty "hourly_summary" then m_update_hourly
  else if String.eqb ty "daily_summary" then m_update_daily
  else m_update_currently.

Section WithEnv.

Variable env : Env.

Definition call (m : method) : M State unit :=
  match m with
  | m_update => update env
  | m_update_currently => update_currently env
  | m_update_minutely => update_minutely env
  | m_update_hourly => update_hourly env
  | m_update_daily => update_daily env
  end.

(** One refresh of a sensor, whatever its outcome: the state it leaves. *)
Definition poll (self : ForeCastSensor) (st : State) : State :=
  snd (final_state (ForeCastSensor_update env (self, st))).

(** The states of the cache and the world a platform can be in: the cache
    object has been constructed, which includes a first successful fetch;
    after that its methods are called, by [setup_platform] and by the
    sensors, and the host logs and registers devices. *)
Inductive reachable : State -> Prop :=
| reach_init (api lat lon units_ : value) (w0 w : World) (c : ForeCastData) :
    snapshot_of w0 = ∅ ->
    ForeCastData_init env api lat lon units_ w0 = Ok c w ->
    reachable {| world := w; cache := c |}
| reach_call (m : method) (st : State) :
    reachable st -> reachable (final_state (call m st))
| reach_logged (l : log_entry) (st : State) :
    reachable st -> reachable (with_world (logged l) st)
| reach_added (l : list ForeCastSensor) (st : State) :
    reachable st -> reachable (with_world (devices_added l) st).

Lemma update_unit_of_measurement_frame (self : ForeCastSensor) (st : State) :
  snd (final_state (update_unit_of_measurement (self, st))) = st
  /\ type (fst (final_state (update_unit_of_measurement (self, st))))
     = type self.
Proof.
  unfold update_unit_of_measurement.
  unfold mbind, M_bind, bind, get, lift, on_self, modify.
  cbn [fst snd].
  destruct (unit_index_of (unit_system (cache st))) as [e|i];
    [by cbn [final_state fst snd]|].
  destruct (dict_get SENSOR_TYPES (type self)) as [e|row];
    [by cbn [final_state fst snd]|].
  destruct (list_get row i) as [e|u]; by cbn [final_state fst snd].
Qed.

(** A sensor refresh is a call of [update] followed, when that call and the
    unit lookup go through, by a call of the method of the sensor's view. *)
Lemma poll_calls (self : ForeCastSensor) (st : State) :
  poll self st = final_state (update env st)
  \/ poll self st
     = final_state (call (view_method (type self))
                      (final_state (update env st))).
Proof.
  unfold poll, ForeCastSensor_update.
  unfold mbind, M_bind, bind, on_cache, get, on_self, modify, lift.
  cbn [fst snd].
  destruct (update env st) as [[] st1|e st1]; cbn [final_state fst snd];
    [|by left].
  pose proof (update_unit_of_measurement_frame self st1) as [Hst Hty].
  destruct (update_unit_of_measurement (self, st1)) as [[] [self1 st1']|e s1];
    cbn [final_state fst snd] in *; [|left; exact Hst].
  subst st1'. right. unfold view_method. rewrite Hty.
  destruct (String.eqb (type self) "minutely_summary");
    [|destruct (String.eqb (type self) "hourly_summary");
      [|destruct (String.eqb (type self) "daily_summary")]];
    cbn [call fst snd].
  - by destruct (update_minutely env st1) as [[] st2|e st2].
  - by destruct (update_hourly env st1) as [[] st2|e st2].
  - by destruct (update_daily env st1) as [[] st2|e st2].
  - destruct (update_currently env st1) as [[] st2|e st2];
      cbn [final_state fst snd]; [|done].
    by destruct (get_currently_state _ _).
Qed.


(** The view a sub-view method cuts and the field it stores it in. *)
Definition view_of (m : method) : ForecastIO -> DataBlock :=
  match m with
  | m_update_minutely => minutely
  | m_update_hourly => hourly
  | m_update_daily => daily
  | _ => currently
  end.

Definition store_of (m : method) : DataBlock -> ForeCastData -> ForeCastData :=
  match m with
  | m_update_minutely => set_data_minutely
  | m_update_hourly => set_data_hourly
  | m_update_daily => set_data_daily
  | _ => set_data_currently
  end.

Lemma store_of_frame (m : method) (d : DataBlock) (c : ForeCastData) :
  data (store_of m d c) = data c /\ _throttle (store_of m d c) = _throttle c.
Proof. by destruct m. Qed.

Lemma call_view_run (m : method) (st : State) :
  m <> m_update ->
  call m st
  = let t := next_time env st in
    let st1 := with_world (tick t) st in
    if limited (cache st) m t then Ok tt st1
    else match data (cache st) with
         | Some p =>
             Ok tt (with_cache (touch m t)
                      (with_world
                         (stamped m (snapshot_of (world st) !! m_update))
                         (with_cache (store_of m (view_of m p)) st1)))
         | None =>
             Raise (AttributeError "'NoneType' object has no such attribute")
               st1
         end.
Proof.
  intros Hm. destruct m; [done|..];
    unfold call, update_currently, update_minutely, update_hourly,
      update_daily;
    rewrite Throttle_run; cbn zeta;
    (destruct (limited _ _ _); [reflexivity|]);
    rewrite extract_body_run; cbn [cache with_world];
    by destruct (data (cache st)).
Qed.

(** The clock never runs backwards. *)
Hypothesis clock_mono :
  forall i j : nat, (i <= j)%nat -> utcnow env i <= utcnow env j.










Lemma view_method_not_update (ty : string) : view_method ty <> m_update.
Proof.
  unfold view_method.
  destruct (String.eqb ty "minutely_summary"); [done|].
  destruct (String.eqb ty "hourly_summary"); [done|].
  by destruct (String.eqb ty "daily_summary").
Qed.

(** A sensor refresh that returns has called [update] and then the method
    of its view, and both have returned. *)
Lemma ForeCastSensor_update_ok (self self' : ForeCastSensor)
    (st st' : State) :
  ForeCastSensor_update env (self, st) = Ok tt (self', st') ->
  exists st1,
    update env st = Ok tt st1
    /\ call (view_method (type self)) st1 = Ok tt st'.
Proof.
  unfold ForeCastSensor_update.
  unfold mbind, M_bind, bind, on_cache, get, on_self, modify, lift.
  cbn [fst snd].
  destruct (update env st) as [[] st1|e st1]; [|discriminate].
  pose proof (update_unit_of_measurement_frame self st1) as [Hst Hty].
  destruct (update_unit_of_measurement (self, st1)) as [[] [self1 st1']|e s1];
    cbn [final_state fst snd] in *; [|discriminate].
  subst st1'. unfold view_method. rewrite Hty. intros Hrun.
  exists st1. split; [reflexivity|]. revert Hrun.
  destruct (String.eqb (type self) "minutely_summary");
    [|destruct (String.eqb (type self) "hourly_summary");
      [|destruct (String.eqb (type self) "daily_summary")]];
    cbn [call fst snd].
  - destruct (update_minutely env st1) as [[] st2|e st2]; [|discriminate].
    by intros [= _ <-].
  - destruct (update_hourly env st1) as [[] st2|e st2]; [|discriminate].
    by intros [= _ <-].
  - destruct (update_daily env st1) as [[] st2|e st2]; [|discriminate].
    by intros [= _ <-].
  - destruct (update_currently env st1) as [[] st2|e st2]; [|discriminate].
    cbn [fst snd]. destruct (get_currently_state _ _); [discriminate|].
    by intros [= _ <-].
Qed.





End WithEnv.

(** A platform with a temperature sensor and a daily-summary sensor that the
    host refreshes at different moments.  The clock reads 0 s during setup
    and the construction of the two sensors (six readings), then 130 s, 150 s,
    260 s and 265 s, twice each; every fetch succeeds, with a new daily
    summary each time. *)
Definition skewed_seconds (k : nat) : Z :=
  if (k <? 6)%nat then 0
  else if (k <? 8)%nat then 130
  else if (k <? 10)%nat then 150
  else if (k <? 12)%nat then 260
  else 265.

Definition env_skew : Env :=
  {| utcnow := fun k => timedelta_seconds (skewed_seconds k);
     load_forecast := fun k _ =>
       inr (payload "si" (nth k ["Rain"; "Sunny"; "Storm"] "Later")) |}.


Definition temperature_sensor : ForeCastSensor :=
  SensorFacts.sensor_of_type "temperature".

Definition daily_sensor : ForeCastSensor :=
  SensorFacts.sensor_of_type "daily_summary".

(** The cache object as [setup_platform] constructs it. *)
Definition constructed (env : Env) : State :=
  match ForeCastData_init env (PyStr "key") (PyFloat 52) (PyFloat 5)
          (PyStr "si") new_world with
  | Ok c w => {| world := w; cache := c |}
  | Raise _ w => {| world := w; cache := SensorFacts.blank_cache PyNone |}
  end.

(** Setup, the two constructors, and the refreshes at 130 s (temperature),
    150 s (daily summary) and 260 s (temperature). *)
Definition before_last_read : State :=
  poll env_skew temperature_sensor
    (poll env_skew daily_sensor
       (poll env_skew temperature_sensor
          (poll env_skew daily_sensor
             (poll env_skew temperature_sensor
                (final_state
                   (update_currently env_skew (constructed env_skew))))))).

Lemma constructed_reachable : reachable env_skew (constructed env_skew).
Proof.
  unfold constructed.
  destruct (ForeCastData_init env_skew (PyStr "key") (PyFloat 52) (PyFloat 5)
              (PyStr "si") new_world) as [c w|e w] eqn:Hinit;
    [|vm_compute in Hinit; discriminate].
  exact (reach_init env_skew _ _ _ _ new_world w c eq_refl Hinit).
Qed.



(** What that refresh shows: the sensor reports the summary of the payload
    fetched at 130 s while the cache holds the one fetched at 260 s. *)
Lemma stale_view_is_reported :
  exists self' st' p,
    ForeCastSensor_update env_skew (daily_sensor, before_last_read)
    = Ok tt (self', st')
    /\ now (world st') = timedelta_seconds 265
    /\ _state self' = PyStr "Sunny"
    /\ data (cache st') = Some p
    /\ getattr (Some (daily p)) "summary" (PyStr "") = PyStr "Storm"
    /\ snapshot_of (world st') !! m_update = Some (timedelta_seconds 260)
    /\ snapshot_of (world st') !! m_update_daily
       = Some (timedelta_seconds 130).
Proof.
  do 3 eexists. split; [vm_compute; reflexivity|].
  repeat split; vm_compute; reflexivity.
Qed.

End FreshnessFacts.

(** * Further properties of the two platforms *)

(** ** More on [convert_to_camel] *)

Module CamelMore.
Import Str StrFacts Forecast.

Fixpoint count (c : ascii) (s : string) : nat :=
  match s with
  | EmptyString => 0
  | String d rest => (if Ascii.eqb d c then 1 else 0) + count c rest
  end.

Fixpoint total_length (ws : list string) : nat :=
  match ws with
  | [] => 0
  | w :: ws' => String.length w + total_length ws'
  end.

Lemma contains_append (c : ascii) (a b : string) :
  contains c (a +:+ b) = contains c a || contains c b.
Proof.
  induction a as [|d a IH]; [reflexivity|].
  change (contains c (String d (a +:+ b))
          = contains c (String d a) || contains c b).
  simpl. rewrite IH. by rewrite orb_assoc.
Qed.

Lemma length_append (a b : string) :
  String.length (a +:+ b) = (String.length a + String.length b)%nat.
Proof.
  induction a as [|d a IH]; [reflexivity|].
  change (String.length (String d (a +:+ b))
          = (String.length (String d a) + String.length b)%nat).
  simpl. by rewrite IH.
Qed.

Lemma split_components (sep : ascii) (s : string) :
  Forall (fun w => contains sep w = false) (split sep s).
Proof.
  induction s as [|c s IH]; simpl.
  - by repeat constructor.
  - destruct (Ascii.eqb c sep) eqn:Hc.
    + by constructor.
    + destruct (split sep s) as [|w ws]; [by repeat constructor; simpl; rewrite Hc|].
      inversion IH as [|? ? Hw Hws]; subst.
      constructor; [|exact Hws]. simpl. by rewrite Hc, Hw.
Qed.

Lemma split_lengths (sep : ascii) (s : string) :
  (total_length (split sep s) + count sep s = String.length s)%nat
  /\ split sep s <> [].
Proof.
  induction s as [|c s [IH Hne]]; simpl; [done|].
  destruct (Ascii.eqb c sep); simpl.
  - split; [lia|done].
  - destruct (split sep s) as [|w ws]; [done|]. simpl in *. split; [lia|done].
Qed.

(** Changing the case of a character neither makes nor unmakes an
    underscore. *)
Lemma case_keeps_underscore (c : ascii) :
  Ascii.eqb (to_upper c) "_" = Ascii.eqb c "_"
  /\ Ascii.eqb (to_lower c) "_" = Ascii.eqb c "_".
Proof. by destruct c as [[] [] [] [] [] [] [] []]. Qed.

Lemma title_from_underscore (prev : bool) (w : string) :
  contains "_" (title_from prev w) = contains "_" w.
Proof.
  revert prev. induction w as [|c w IH]; intros prev; simpl; [reflexivity|].
  destruct (case_keeps_underscore c) as [Hup Hlow].
  destruct (is_lower c); [|destruct (is_upper c)]; simpl; rewrite IH;
    destruct prev; by rewrite ?Hup, ?Hlow.
Qed.

Lemma title_from_length (prev : bool) (w : string) :
  String.length (title_from prev w) = String.length w.
Proof.
  revert prev. induction w as [|c w IH]; intros prev; simpl; [reflexivity|].
  destruct (is_lower c); [|destruct (is_upper c)]; simpl; by rewrite IH.
Qed.

Lemma concat_titles (ws : list string) :
  Forall (fun w => contains "_" w = false) ws ->
  contains "_" (Str.concat (map title ws)) = false
  /\ String.length (Str.concat (map title ws)) = total_length ws.
Proof.
  induction 1 as [|w ws Hw _ [IHc IHl]]; simpl; [done|].
  rewrite contains_append, length_append, IHc, IHl.
  unfold title. by rewrite title_from_underscore, title_from_length, Hw.
Qed.

Lemma camel_has_no_underscore (data : string) :
  contains "_" (convert_to_camel data) = false.
Proof.
  unfold convert_to_camel.
  pose proof (split_components "_" data) as Hall.
  destruct (split "_" data) as [|c0 rest]; [reflexivity|].
  inversion Hall as [|? ? Hc0 Hrest]; subst.
  rewrite contains_append, Hc0.
  by destruct (concat_titles rest Hrest) as [-> _].
Qed.

(** X1. The camel-case name never contains an underscore, whatever the key: not
    with leading, trailing or doubled underscores either. *)
Theorem convert_to_camel_no_underscore (data : string) :
  contains "_" (convert_to_camel data) = false.
Proof. apply camel_has_no_underscore. Qed.

(** X3. Converting twice is converting once: a camel-case name is left as it
    is. *)
Theorem convert_to_camel_idempotent (data : string) :
  convert_to_camel (convert_to_camel data) = convert_to_camel data.
Proof.
  pose proof (camel_has_no_underscore data) as Hclean.
  unfold convert_to_camel at 1.
  rewrite (split_no_sep _ _ Hclean). cbn [map Str.concat].
  apply append_empty_r.
Qed.

(** [s.isascii()]: every character is below 128.  On such strings, and the
    keys of the table are such, [Str.title] is Python's [title]; a cased
    character outside ASCII can change length when its case changes, which
    [Str.title] does not follow. *)
Fixpoint is_ascii (s : string) : bool :=
  match s with
  | EmptyString => true
  | String c rest => (nat_of_ascii c <? 128)%nat && is_ascii rest
  end.

(** X2. For a key of ASCII characters, the camel-case name is the key without
    its underscores as far as length goes: every other character is kept or
    changes case. *)
Theorem convert_to_camel_length (data : string) :
  is_ascii data = true ->
  (String.length (convert_to_camel data) + count "_" data
   = String.length data)%nat.
Proof.
  intros _. unfold convert_to_camel.
  pose proof (split_components "_" data) as Hall.
  destruct (split_lengths "_" data) as [Hlen Hne].
  destruct (split "_" data) as [|c0 rest]; [done|].
  inversion Hall as [|? ? Hc0 Hrest]; subst.
  rewrite length_append.
  destruct (concat_titles rest Hrest) as [_ ->]. exact Hlen.
Qed.

Lemma convert_to_camel_length_witness :
  is_ascii "precip_intensity_max" = true
  /\ convert_to_camel "precip_intensity_max" = "precipIntensityMax"
  /\ (String.length (convert_to_camel "precip_intensity_max")
      + count "_" "precip_intensity_max"
      = String.length "precip_intensity_max")%nat.
Proof.
  split; [reflexivity|]. split; [reflexivity|].
  exact (convert_to_camel_length "precip_intensity_max" eq_refl).
Defined.

End CamelMore.

(** ** More on [get_currently_state] *)

Module SensorMore.
Import Forecast SensorFacts.

Definition percent_fields : list string :=
  ["precip_probability"; "cloud_cover"; "humidity"].

Definition rounded_fields : list string :=
  ["dew_point"; "temperature"; "apparent_temperature"; "pressure"; "ozone"].

(** The values [round] and [* 100] both accept. *)
Definition is_number (v : value) : bool :=
  match v with
  | PyBool _ | PyInt _ | PyFloat _ => true
  | _ => false
  end.

Lemma get_currently_state_cases (self : ForeCastSensor)
    (d : option DataBlock) :
  let raw := getattr d (convert_to_camel (type self)) (PyInt 0) in
  (type self ∈ percent_fields /\
   get_currently_state self d
   = match PyNum.mul100 raw with
     | inr scaled => PyNum.round_1 scaled
     | inl e => inl e
     end)
  \/ ((type self ∈ rounded_fields) /\
      get_currently_state self d = PyNum.round_1 raw)
  \/ ((type self ∉ percent_fields) /\ (type self ∉ rounded_fields) /\
      get_currently_state self d = inr raw).
Proof.
  intros raw. unfold get_currently_state. fold raw.
  unfold percent_fields, rounded_fields.
  destruct (decide (type self ∈ ["precip_probability"; "cloud_cover";
                                "humidity"])) as [Hp|Hp].
  { left. split; [exact Hp|]. by rewrite (py_in_true _ _ Hp). }
  rewrite (py_in_false _ _ Hp).
  destruct (decide (type self ∈ ["dew_point"; "temperature";
                                "apparent_temperature"; "pressure";
                                "ozone"])) as [Hr|Hr].
  { right. left. split; [exact Hr|]. by rewrite (py_in_true _ _ Hr). }
  right. right. by rewrite (py_in_false _ _ Hr).
Qed.

(** X4. A field the service did not send reads as 0: whatever the type of the
    sensor, when the "currently" view is missing or lacks the attribute, the
    state is the integer 0, scaled and rounded or not. *)
Theorem get_currently_state_absent (self : ForeCastSensor)
    (d : option DataBlock) :
  (forall block, d = Some block ->
                 attrs block !! convert_to_camel (type self) = None) ->
  get_currently_state self d = inr (PyInt 0).
Proof.
  intros Habsent.
  assert (getattr d (convert_to_camel (type self)) (PyInt 0) = PyInt 0)
    as Hraw.
  { unfold getattr. destruct d as [block|]; [|reflexivity].
    by rewrite (Habsent block eq_refl). }
  destruct (get_currently_state_cases self d) as [[_ ->]|[[_ ->]|(_ & _ & ->)]];
    by rewrite Hraw.
Qed.

Lemma get_currently_state_absent_witness :
  (forall block, Some (point [("temperature", PyFloat 21.449)]) = Some block ->
                 attrs block !! convert_to_camel "humidity" = None)
  /\ get_currently_state (sensor_of_type "humidity")
       (Some (point [("temperature", PyFloat 21.449)]))
     = inr (PyInt 0).
Proof.
  assert (forall block,
            Some (point [("temperature", PyFloat 21.449)]) = Some block ->
            attrs block !! convert_to_camel "humidity" = None) as H
    by (by intros block [= <-]).
  split; [exact H|].
  exact (get_currently_state_absent (sensor_of_type "humidity") _ H).
Defined.

(** X5. [get_currently_state] raises exactly when a percent field or a rounded
    field holds something that is not a number ([None], a string, a list),
    and what it raises then is a [TypeError]; every other field hands its
    attribute over as it is, whatever it is. *)
Theorem get_currently_state_raises_iff (self : ForeCastSensor)
    (d : option DataBlock) :
  let raw := getattr d (convert_to_camel (type self)) (PyInt 0) in
  ((exists e, get_currently_state self d = inl e)
   <-> (type self ∈ percent_fields \/ type self ∈ rounded_fields)
       /\ is_number raw = false)
  /\ (forall e, get_currently_state self d = inl e -> exists msg, e = TypeError msg)
  /\ ((type self ∉ percent_fields) -> (type self ∉ rounded_fields) ->
      get_currently_state self d = inr raw).
Proof.
  intros raw.
  destruct (get_currently_state_cases self d)
    as [[Hp ->]|[[Hr ->]|(Hp & Hr & ->)]]; fold raw.
  - split; [split|split].
    + intros [e He]. split; [by left|].
      destruct raw; simpl in *; try done.
    + intros [_ Hn]. destruct raw; simpl in *; try done; eauto.
    + intros e. destruct raw; simpl; intros [= <-]; eauto.
    + intros Hn. done.
  - split; [split|split].
    + intros [e He]. split; [by right|].
      destruct raw; simpl in *; try done.
    + intros [_ Hn]. destruct raw; simpl in *; try done; eauto.
    + intros e. destruct raw; simpl; intros [= <-]; eauto.
    + intros _ Hn. done.
  - split; [split|split].
    + intros [e He]. discriminate.
    + intros [[H|H] _]; done.
    + intros e. discriminate.
    + done.
Qed.

Lemma get_currently_state_raises_iff_witness :
  ("wind_speed" ∉ percent_fields) /\ ("wind_speed" ∉ rounded_fields)
  /\ get_currently_state (sensor_of_type "wind_speed")
       (Some (point [("windSpeed", PyNone)]))
     = inr PyNone.
Proof.
  assert ("wind_speed" ∉ percent_fields) as Hp.
  { unfold percent_fields. rewrite !not_elem_of_cons.
    repeat split; try discriminate. apply not_elem_of_nil. }
  assert ("wind_speed" ∉ rounded_fields) as Hr.
  { unfold rounded_fields. rewrite !not_elem_of_cons.
    repeat split; try discriminate. apply not_elem_of_nil. }
  split; [exact Hp|]. split; [exact Hr|].
  exact (proj2 (proj2 (get_currently_state_raises_iff
                         (sensor_of_type "wind_speed")
                         (Some (point [("windSpeed", PyNone)])))) Hp Hr).
Defined.

End SensorMore.

(** ** More on the cache object *)

Module CacheMore.
Import Forecast CacheFacts FreshnessFacts.

(** The field a method fills. *)
Definition field_of (m : method) (c : ForeCastData) : option DataBlock :=
  match m with
  | m_update => None
  | m_update_currently => data_currently c
  | m_update_minutely => data_minutely c
  | m_update_hourly => data_hourly c
  | m_update_daily => data_daily c
  end.

(** The parameters a cache object is constructed with. *)
Definition parameters (c : ForeCastData) : value * value * value * value :=
  (_api_key c, latitude c, longitude c, units c).

Section WithEnv.

Variable env : Env.

(** The undecorated body of each method. *)
Definition body (m : method) : M State unit :=
  match m with
  | m_update => update_body env
  | m_update_currently =>
      extract_body m_update_currently currently set_data_currently
  | m_update_minutely =>
      extract_body m_update_minutely minutely set_data_minutely
  | m_update_hourly => extract_body m_update_hourly hourly set_data_hourly
  | m_update_daily => extract_body m_update_daily daily set_data_daily
  end.


(** X6. When the payload the service returns has no [flags] entry, or its
    [flags] have no [units], the body of [update] raises a [KeyError] after
    it has replaced the payload: the new payload is held together with the
    unit-system flag of the old one. *)
Theorem update_body_without_units (st : State) (p : ForecastIO) :
  next_response env st = inr p ->
  (json p !! "flags" = None
   \/ exists flags, json p !! "flags" = Some flags /\ flags !! "units" = None) ->
  exists key st',
    update_body env st = Raise (KeyError key) st'
    /\ (key = "flags" \/ key = "units")
    /\ data (cache st') = Some p
    /\ unit_system (cache st') = unit_system (cache st).
Proof.
  intros Hresp Hmissing. rewrite update_body_run. cbn zeta. rewrite Hresp.
  destruct Hmissing as [Hflags|(flags & Hflags & Hunits)].
  - rewrite Hflags. exists "flags". eexists. split; [reflexivity|].
    split; [by left|]. by split.
  - rewrite Hflags, Hunits. exists "units". eexists. split; [reflexivity|].
    split; [by right|]. by split.
Qed.

(** X7. Whatever its outcome, the body of [update] sends exactly one request,
    which carries the key, the coordinates and the units the object was
    constructed with, and changes nothing of the object but [data] and
    [unit_system]: the four views, the parameters and the throttle
    timestamps are as before. *)
Theorem update_body_frame (st : State) :
  let st' := final_state (update_body env st) in
  requests (world st')
  = (requests (world st) ++
     [{| req_api_key := _api_key (cache st);
         req_latitude := latitude (cache st);
         req_longitude := longitude (cache st);
         req_units := units (cache st) |}])%list
  /\ parameters (cache st') = parameters (cache st)
  /\ (forall m, field_of m (cache st') = field_of m (cache st))
  /\ _throttle (cache st') = _throttle (cache st)
  /\ clock_reads (world st') = clock_reads (world st)
  /\ added (world st') = added (world st)
  /\ errors (world st') = errors (world st).
Proof.
  rewrite update_body_run. cbn zeta.
  destruct (next_response env st) as [e|p]; [|destruct (json p !! "flags") as
    [flags|]; [destruct (flags !! "units")|]];
    cbn [final_state]; repeat split; try reflexivity; by intros [].
Qed.

(** X8. The body of a view method sends nothing.  On an object that holds no
    payload it raises an [AttributeError] and changes nothing; on an object
    that holds one it stores the view of that payload in its own field and
    leaves the payload, the unit-system flag, the other three views, the
    parameters and the throttle timestamps as they are. *)
Theorem view_body_cuts_own_view (m : method) (st : State) :
  m <> m_update ->
  (data (cache st) = None ->
     exists msg, body m st = Raise (AttributeError msg) st)
  /\ (forall p, data (cache st) = Some p ->
        exists st',
          body m st = Ok tt st'
          /\ field_of m (cache st') = Some (view_of m p)
          /\ (forall m', m' <> m ->
                field_of m' (cache st') = field_of m' (cache st))
          /\ data (cache st') = Some p
          /\ unit_system (cache st') = unit_system (cache st)
          /\ parameters (cache st') = parameters (cache st)
          /\ _throttle (cache st') = _throttle (cache st)
          /\ requests (world st') = requests (world st)
          /\ clock_reads (world st') = clock_reads (world st)).
Proof.
  intros Hm. split.
  - intros Hnone. destruct m; [done|..]; cbn [body];
      rewrite extract_body_run, Hnone; eauto.
  - intros p Hp. destruct m; [done|..]; cbn [body];
      rewrite extract_body_run, Hp;
      (eexists; split; [reflexivity|]);
      cbn; repeat split; try done;
      intros m' Hm'; by destruct m'.
Qed.

End WithEnv.

(** A service whose answer carries no flags. *)
Definition env_flagless : Env :=
  {| utcnow := fun k => timedelta_seconds (Z.of_nat k);
     load_forecast := fun _ _ =>
       inr {| json := ∅; currently := block []; minutely := block [];
              hourly := block []; daily := block [] |} |}.

Lemma update_body_without_units_witness :
  exists key st',
    update_body env_flagless stale_state = Raise (KeyError key) st'
    /\ data (cache st')
       = Some {| json := ∅; currently := block []; minutely := block [];
                 hourly := block []; daily := block [] |}
    /\ unit_system (cache st') = PyStr "si".
Proof.
  destruct (update_body_without_units env_flagless stale_state _ eq_refl
              (or_introl eq_refl))
    as (key & st' & Hrun & _ & Hdata & Hunit).
  exists key, st'. split; [exact Hrun|]. split; [exact Hdata|exact Hunit].
Defined.

Lemma view_body_cuts_own_view_witness :
  m_update_hourly <> m_update
  /\ exists st',
       body env_up m_update_hourly stale_state = Ok tt st'
       /\ data_hourly (cache st') = Some (hourly (payload "si" "Sunny"))
       /\ data_daily (cache st') = None.
Proof.
  split; [done|].
  destruct (proj2 (view_body_cuts_own_view env_up m_update_hourly stale_state
                     ltac:(done)) (payload "si" "Sunny") eq_refl)
    as (st' & Hrun & Hown & Hothers & _).
  exists st'. split; [exact Hrun|]. split; [exact Hown|].
  exact (Hothers m_update_daily ltac:(done)).
Defined.

End CacheMore.

(** ** More on the sensor entity *)

Module RefreshFacts.
Import Forecast CacheFacts FreshnessFacts.

Definition summary_types : list string :=
  ["minutely_summary"; "hourly_summary"; "daily_summary"].

Section WithEnv.

Variable env : Env.

Lemma update_unit_of_measurement_ok (self : ForeCastSensor) (st : State)
    (s1 : ForeCastSensor * State) :
  update_unit_of_measurement (self, st) = Ok tt s1 ->
  exists row i u,
    SENSOR_TYPES !! type self = Some row
    /\ unit_index_of (unit_system (cache st)) = inr i
    /\ row !! i = Some u
    /\ s1 = (set_unit_of_measurement u self, st).
Proof.
  unfold update_unit_of_measurement.
  unfold mbind, M_bind, bind, get, lift, on_self, modify, dict_get, list_get.
  cbn [fst snd].
  destruct (unit_index_of (unit_system (cache st))) as [e|i]; [discriminate|].
  destruct (SENSOR_TYPES !! type self) as [row|]; [|discriminate].
  destruct (row !! i) as [u|] eqn:Hu; [|discriminate].
  intros [= <-]. by exists row, i, u.
Qed.

Lemma view_call_keeps_unit_system (m : method) (st : State) :
  m <> m_update ->
  unit_system (cache (final_state (call env m st))) = unit_system (cache st).
Proof.
  intros Hm. rewrite (call_view_run _ _ _ Hm). cbn zeta.
  destruct (limited _ _ _); [reflexivity|].
  destruct (data (cache st)); [|reflexivity]. by destruct m.
Qed.

Lemma refresh_fields (self self' : ForeCastSensor) (st st' : State) :
  ForeCastSensor_update env (self, st) = Ok tt (self', st') ->
  type self' = type self
  /\ client_name self' = client_name self
  /\ _name self' = _name self
  /\ (type self = "minutely_summary" ->
      _state self' = getattr (data_minutely (cache st')) "summary" (PyStr ""))
  /\ (type self = "hourly_summary" ->
      _state self' = getattr (data_hourly (cache st')) "summary" (PyStr ""))
  /\ (type self = "daily_summary" ->
      _state self' = getattr (data_daily (cache st')) "summary" (PyStr ""))
  /\ (type self ∉ summary_types ->
      get_currently_state self (data_currently (cache st'))
      = inr (_state self'))
  /\ exists row i,
       SENSOR_TYPES !! type self = Some row
       /\ unit_index_of (unit_system (cache st')) = inr i
       /\ row !! i = Some (_unit_of_measurement self').
Proof.
  unfold ForeCastSensor_update.
  unfold mbind, M_bind, bind, on_cache, get, on_self, modify, lift.
  cbn [fst snd].
  destruct (update env st) as [[] st1|e st1]; [|discriminate].
  destruct (update_unit_of_measurement (self, st1)) as [[] s1|e s1] eqn:Huum;
    [|discriminate].
  destruct (update_unit_of_measurement_ok _ _ _ Huum)
    as (row & i & u & Hrow & Hi & Hu & ->).
  cbn [fst snd set_unit_of_measurement type].
  assert (forall m v,
            m <> m_update -> call env m st1 = Ok tt st' ->
            self' = set_state v (set_unit_of_measurement u self) ->
            type self' = type self /\ client_name self' = client_name self
            /\ _name self' = _name self /\ _state self' = v
            /\ exists row i,
                 SENSOR_TYPES !! type self = Some row
                 /\ unit_index_of (unit_system (cache st')) = inr i
                 /\ row !! i = Some (_unit_of_measurement self')) as Hfields.
  { intros m v Hm Hcall ->. repeat split. exists row, i.
    pose proof (view_call_keeps_unit_system m st1 Hm) as Hus.
    rewrite Hcall in Hus. cbn in Hus. by rewrite Hus. }
  unfold summary_types.
  destruct (String.eqb_spec (type self) "minutely_summary") as [Ht|Ht1];
    cbn [fst snd].
  { destruct (update_minutely env st1) as [[] st2|e st2] eqn:Hcall;
      [|discriminate].
    cbn [fst snd]. intros [= <- <-].
    destruct (Hfields m_update_minutely _ ltac:(done) Hcall eq_refl)
      as (H1 & H2 & H3 & H4 & H5).
    repeat split; try done; try (rewrite Ht; discriminate).
    rewrite Ht. intros Hn. exfalso. apply Hn.
    repeat (apply elem_of_cons; first [left; reflexivity | right]). }
  destruct (String.eqb_spec (type self) "hourly_summary") as [Ht|Ht2];
    cbn [fst snd].
  { destruct (update_hourly env st1) as [[] st2|e st2] eqn:Hcall;
      [|discriminate].
    cbn [fst snd]. intros [= <- <-].
    destruct (Hfields m_update_hourly _ ltac:(done) Hcall eq_refl)
      as (H1 & H2 & H3 & H4 & H5).
    repeat split; try done; try (rewrite Ht; discriminate).
    rewrite Ht. intros Hn. exfalso. apply Hn.
    repeat (apply elem_of_cons; first [left; reflexivity | right]). }
  destruct (String.eqb_spec (type self) "daily_summary") as [Ht|Ht3];
    cbn [fst snd].
  { destruct (update_daily env st1) as [[] st2|e st2] eqn:Hcall;
      [|discriminate].
    cbn [fst snd]. intros [= <- <-].
    destruct (Hfields m_update_daily _ ltac:(done) Hcall eq_refl)
      as (H1 & H2 & H3 & H4 & H5).
    repeat split; try done; try (rewrite Ht; discriminate).
    rewrite Ht. intros Hn. exfalso. apply Hn.
    repeat (apply elem_of_cons; first [left; reflexivity | right]). }
  destruct (update_currently env st1) as [[] st2|e st2] eqn:Hcall;
    [|discriminate].
  cbn [fst snd].
  change (get_currently_state (set_unit_of_measurement u self)
            (data_currently (cache st2)))
    with (get_currently_state self (data_currently (cache st2))).
  destruct (get_currently_state self (data_currently (cache st2)))
    as [e|v] eqn:Hget; [discriminate|].
  intros [= <- <-].
  destruct (Hfields m_update_currently v ltac:(done) Hcall eq_refl)
    as (H1 & H2 & H3 & H4 & H5).
  repeat split; done.
Qed.

(** X9. What a refresh that returns leaves in the sensor: its type, prefix and
    display name are untouched; the state of a summary sensor is the summary
    of the view the cache holds after the refresh, the empty string when the
    view has none; the state of every other sensor is what
    [get_currently_state] makes of the "currently" view held; the unit is the
    entry of the sensor's row for the unit system the cache reports. *)
Theorem refresh_result (self self' : ForeCastSensor) (st st' : State) :
  ForeCastSensor_update env (self, st) = Ok tt (self', st') ->
  type self' = type self
  /\ client_name self' = client_name self
  /\ _name self' = _name self
  /\ (type self = "minutely_summary" ->
      _state self' = getattr (data_minutely (cache st')) "summary" (PyStr ""))
  /\ (type self = "hourly_summary" ->
      _state self' = getattr (data_hourly (cache st')) "summary" (PyStr ""))
  /\ (type self = "daily_summary" ->
      _state self' = getattr (data_daily (cache st')) "summary" (PyStr ""))
  /\ (type self ∉ summary_types ->
      get_currently_state self (data_currently (cache st'))
      = inr (_state self'))
  /\ exists row i,
       SENSOR_TYPES !! type self = Some row
       /\ unit_index_of (unit_system (cache st')) = inr i
       /\ row !! i = Some (_unit_of_measurement self').
Proof. apply refresh_fields. Qed.

(** X10. The constructor of a sensor looks its display name up first: for a type
    that is not in the table it raises a [KeyError] before anything else
    happens, the cache and the world being left as they are; a sensor it
    does construct has the type and the prefix it was given and the display
    name of its row. *)
Theorem ForeCastSensor_init_checks_type (sensor_type : string)
    (name : value) (st : State) :
  (SENSOR_TYPES !! sensor_type = None ->
   ForeCastSensor_init env sensor_type name st
   = Raise (KeyError sensor_type) st)
  /\ (forall self st',
        ForeCastSensor_init env sensor_type name st = Ok self st' ->
        type self = sensor_type /\ client_name self = name
        /\ exists row, SENSOR_TYPES !! sensor_type = Some row
                       /\ row !! 0%nat = Some (_name self)).
Proof.
  unfold ForeCastSensor_init, mbind, M_bind, bind, lift, dict_get, list_get.
  split.
  - by intros ->.
  - intros self st'.
    destruct (SENSOR_TYPES !! sensor_type) as [row|] eqn:Hrow; [|discriminate].
    destruct (row !! 0%nat) as [n|] eqn:Hname; [|discriminate].
    unfold constructing.
    destruct (ForeCastSensor_update env _) as [[] [self1 st1]|e s1] eqn:Hrun;
      [|discriminate].
    cbn [fst snd]. intros [= <- <-].
    destruct (refresh_fields _ _ _ _ Hrun) as (Ht & Hc & Hn & _).
    cbn in Ht, Hc, Hn. rewrite Ht, Hc, Hn.
    split; [reflexivity|]. split; [reflexivity|]. by exists row.
Qed.

End WithEnv.

Lemma refresh_result_witness :
  exists self' st',
    ForeCastSensor_update env_up
      (SensorFacts.sensor_of_type "daily_summary", constructed env_up)
    = Ok tt (self', st')
    /\ type self' = "daily_summary"
    /\ _state self' = PyStr "Rain".
Proof.
  destruct (ForeCastSensor_update env_up
              (SensorFacts.sensor_of_type "daily_summary",
               constructed env_up))
    as [[] [self' st']|e s] eqn:Hrun; [|vm_compute in Hrun; discriminate].
  exists self', st'. split; [reflexivity|].
  destruct (refresh_result env_up _ _ _ _ Hrun)
    as (Ht & _ & _ & _ & _ & Hd & _).
  split; [exact Ht|]. rewrite (Hd eq_refl).
  vm_compute in Hrun. injection Hrun as _ <-. vm_compute. reflexivity.
Defined.

Lemma ForeCastSensor_init_checks_type_witness :
  SENSOR_TYPES !! "bogus" = None
  /\ ForeCastSensor_init env_up "bogus" (PyStr DEFAULT_NAME) fresh_state
     = Raise (KeyError "bogus") fresh_state.
Proof.
  assert (SENSOR_TYPES !! "bogus" = None) as Hnone
    by (vm_compute; reflexivity).
  split; [exact Hnone|].
  exact (proj1 (ForeCastSensor_init_checks_type env_up "bogus"
                  (PyStr DEFAULT_NAME) fresh_state) Hnone).
Defined.

End RefreshFacts.

(** ** More on platform setup *)

Module SetupMore.
Import Forecast CacheFacts FreshnessFacts RefreshFacts SetupFacts.

(** The monitored conditions for which a sensor is made: the strings that
    are keys of the table, in the order of the configuration. *)
Fixpoint known_conditions (variables : list value) : list string :=
  match variables with
  | [] => []
  | PyStr v :: rest =>
      if bool_decide (is_Some (SENSOR_TYPES !! v))
      then v :: known_conditions rest
      else known_conditions rest
  | _ :: rest => known_conditions rest
  end.

(** A sensor carrying the prefix [name] and the display name of its row. *)
Definition described (name : value) (s : ForeCastSensor) : Prop :=
  client_name s = name
  /\ exists row, SENSOR_TYPES !! type s = Some row
                 /\ row !! 0%nat = Some (_name s).

Section WithEnv.

Variable env : Env.
Variables CONF_API_KEY TEMP_CELSIUS : string.

Lemma call_added (m : method) (st : State) :
  added (world (final_state (call env m st))) = added (world st).
Proof.
  destruct (decide (m = m_update)) as [->|Hm].
  - cbn [call]. rewrite update_run. cbn zeta.
    destruct (limited _ _ _); [reflexivity|].
    rewrite update_body_run. cbn zeta.
    destruct (next_response env _) as [e|p]; [reflexivity|].
    destruct (json p !! "flags") as [flags|]; [|reflexivity].
    by destruct (flags !! "units").
  - rewrite (call_view_run _ _ _ Hm). cbn zeta.
    destruct (limited _ _ _); [reflexivity|].
    by destruct (data (cache st)).
Qed.

Lemma poll_added (self : ForeCastSensor) (st : State) :
  added (world (poll env self st)) = added (world st).
Proof.
  destruct (poll_calls env self st) as [-> | ->].
  - apply (call_added m_update).
  - rewrite call_added. apply (call_added m_update).
Qed.

Lemma ForeCastSensor_init_added (ty : string) (name : value) (st : State) :
  added (world (final_state (ForeCastSensor_init env ty name st)))
  = added (world st).
Proof.
  unfold ForeCastSensor_init, mbind, M_bind, bind, lift, dict_get, list_get.
  destruct (SENSOR_TYPES !! ty) as [row|]; [|reflexivity].
  destruct (row !! 0%nat) as [n|]; [|reflexivity].
  unfold constructing.
  match goal with
  | |- context [ForeCastSensor_update env (?self, st)] =>
      pose proof (poll_added self st) as Hpoll; unfold poll in Hpoll;
      destruct (ForeCastSensor_update env (self, st)) as [[] s|e s]
  end; exact Hpoll.
Qed.

Lemma ForeCastSensor_init_described (ty : string) (name : value)
    (st st' : State) (self : ForeCastSensor) :
  ForeCastSensor_init env ty name st = Ok self st' ->
  type self = ty /\ described name self.
Proof.
  unfold ForeCastSensor_init, mbind, M_bind, bind, lift, dict_get, list_get.
  destruct (SENSOR_TYPES !! ty) as [row|] eqn:Hrow; [|discriminate].
  destruct (row !! 0%nat) as [n|] eqn:Hname; [|discriminate].
  unfold constructing.
  destruct (ForeCastSensor_update env _) as [[] [self1 st1]|e s1] eqn:Hrun;
    [|discriminate].
  cbn [fst snd]. intros [= <- <-].
  destruct (refresh_fields _ _ _ _ _ Hrun) as (Ht & Hc & Hn & _).
  cbn in Ht, Hc, Hn. unfold described. rewrite Ht, Hc, Hn.
  split; [reflexivity|]. split; [reflexivity|]. by exists row.
Qed.

Lemma add_sensors_result (variables : list value) (name : value) :
  forall (sensors : list ForeCastSensor) (st : State),
    match add_sensors env variables name sensors st with
    | Ok sensors' st' =>
        added (world st') = added (world st)
        /\ map type sensors'
           = (map type sensors ++ known_conditions variables)%list
        /\ (Forall (described name) sensors ->
            Forall (described name) sensors')
    | Raise _ st' => added (world st') = added (world st)
    end.
Proof.
  induction variables as [|variable rest IH]; intros sensors st.
  { cbn. by rewrite app_nil_r. }
  assert (forall st0,
            added (world st0) = added (world st) ->
            match add_sensors env rest name sensors st0 with
            | Ok sensors' st' =>
                added (world st') = added (world st)
                /\ map type sensors'
                   = (map type sensors ++ known_conditions rest)%list
                /\ (Forall (described name) sensors ->
                    Forall (described name) sensors')
            | Raise _ st' => added (world st') = added (world st)
            end) as Hskip.
  { intros st0 Hst0. specialize (IH sensors st0).
    destruct (add_sensors env rest name sensors st0) as [sensors' st'|e st'];
      by rewrite <- Hst0. }
  destruct variable as [| b | n | f | v | l]; cbn [add_sensors known_conditions];
    try (unfold mbind, M_bind, bind, modify; by apply Hskip).
  - destruct (bool_decide (is_Some (SENSOR_TYPES !! v)));
      [|unfold mbind, M_bind, bind, modify; by apply Hskip].
    unfold mbind, M_bind, bind.
    pose proof (ForeCastSensor_init_added v name st) as Hadded.
    destruct (ForeCastSensor_init env v name st) as [self st1|e st1] eqn:Hinit;
      cbn [final_state] in Hadded; [|exact Hadded].
    destruct (ForeCastSensor_init_described _ _ _ _ _ Hinit) as [Hty Hdesc].
    specialize (IH (sensors ++ [self])%list st1).
    destruct (add_sensors env rest name (sensors ++ [self])%list st1)
      as [sensors' st'|e st']; [|by rewrite <- Hadded].
    destruct IH as (Ha & Hm & Hd). split; [by rewrite <- Hadded|].
    split.
    + rewrite Hm, map_app. cbn. rewrite Hty. by rewrite <- app_assoc.
    + intros Hall. apply Hd. apply Forall_app. split; [exact Hall|].
      by constructor.
  - reflexivity.
Qed.

Lemma validate_config_result (config : gmap string value) (w : World) :
  exists b w1,
    validate_config config [CONF_API_KEY] w = Ok b w1
    /\ added w1 = added w.
Proof.
  destruct (config !! CONF_API_KEY) as [key|] eqn:Hkey.
  - exists true, w. by rewrite (validate_config_present _ _ _ _ Hkey).
  - eexists false, _. by rewrite (validate_config_missing _ _ _ Hkey).
Qed.

Lemma run_on_added {A : Type} (c : ForeCastData) (m : M State A) (w : World) :
  (forall st, added (world (final_state (m st))) = added (world st)) ->
  added (final_state (run_on c m w)) = added w.
Proof.
  intros Hm. unfold run_on.
  specialize (Hm {| world := w; cache := c |}).
  by destruct (m {| world := w; cache := c |}).
Qed.

Lemma ForeCastData_init_added (api lat lon units_ : value) (w : World) :
  added (final_state (ForeCastData_init env api lat lon units_ w)) = added w.
Proof.
  unfold ForeCastData_init, mbind, M_bind, bind.
  match goal with
  | |- context [run_on ?c ?m w] =>
      pose proof (run_on_added c m w (call_added m_update)) as H;
      destruct (run_on c m w) as [[[] c'] w'|e w']
  end; exact H.
Qed.

(** X11. [setup_platform] calls [add_devices] at most once, and exactly when it
    returns [None]: not when it returns [False], not when an exception leaves
    it.  The one call hands over one sensor for every monitored condition
    that is a key of the table, in the order of the configuration, each with
    the configured prefix ('Forecast.io' when none is configured) and the
    display name of its row; conditions that are no keys are skipped. *)
Theorem setup_platform_adds_devices_once (hass : HassConfig)
    (config : gmap string value) (w : World) :
  match setup_platform env CONF_API_KEY TEMP_CELSIUS hass config w with
  | Ok v w' =>
      (v = PyBool false /\ added w' = added w)
      \/ (v = PyNone
          /\ exists conditions variables sensors,
               config !! "monitored_conditions" = Some conditions
               /\ py_iter conditions = inr variables
               /\ added w' = (added w ++ [sensors])%list
               /\ map type sensors = known_conditions variables
               /\ Forall (described
                            (default (PyStr DEFAULT_NAME) (config !! "name")))
                    sensors)
  | Raise _ w' => added w' = added w
  end.
Proof.
  unfold setup_platform.
  destruct (is_None (hass_latitude hass) || is_None (hass_longitude hass)).
  { cbn. left. by split. }
  unfold mbind at 1, M_bind at 1, bind at 1.
  destruct (validate_config_result config w) as (b & w1 & -> & Hw1).
  destruct b; cbn [negb]; [|left; by split].
  unfold mbind at 1, M_bind at 1, bind at 1. unfold try_except.
  unfold mbind at 1, M_bind at 1, bind at 1.
  match goal with
  | |- context [ForeCastData_init env ?a ?b ?c ?d w1] =>
      pose proof (ForeCastData_init_added a b c d w1) as Hinit;
      destruct (ForeCastData_init env a b c d w1) as [fd w2|e w2]
  end; cbn [final_state] in Hinit.
  2:{ destruct (is_ValueError e);
        unfold mbind, M_bind, bind, log_error, modify, mret, M_ret, ret; cbn;
        [left; split; [reflexivity|]|]; by rewrite Hinit, Hw1. }
  unfold mbind at 1, M_bind at 1, bind at 1.
  pose proof (run_on_added fd (update_currently env) w2
                (call_added m_update_currently)) as Hcur.
  destruct (run_on fd (update_currently env) w2) as [[[] fd'] w3|e w3];
    cbn [final_state] in Hcur.
  2:{ destruct (is_ValueError e);
        unfold mbind, M_bind, bind, log_error, modify, mret, M_ret, ret; cbn;
        [left; split; [reflexivity|]|]; by rewrite Hcur, Hinit, Hw1. }
  cbn [snd]. unfold mret at 1, M_ret at 1, ret at 1.
  unfold mbind at 1, M_bind at 1, bind at 1. unfold lift at 1, dict_get at 1.
  destruct (config !! "monitored_conditions") as [conditions|];
    [|cbn; by rewrite Hcur, Hinit, Hw1].
  unfold mbind at 1, M_bind at 1, bind at 1. unfold lift at 1.
  destruct (py_iter conditions) as [e|variables] eqn:Hiter;
    [cbn; by rewrite Hcur, Hinit, Hw1|].
  unfold mbind at 1, M_bind at 1, bind at 1.
  pose proof (add_sensors_result variables
                (default (PyStr DEFAULT_NAME) (config !! "name")) []
                {| world := w3; cache := fd' |}) as Hloop.
  unfold run_on.
  destruct (add_sensors env variables _ [] _) as [sensors st'|e st'];
    cbn [world] in Hloop.
  2:{ by rewrite Hloop, Hcur, Hinit, Hw1. }
  destruct Hloop as (Ha & Hm & Hd). cbn.
  right. split; [reflexivity|].
  exists conditions, variables, sensors.
  split; [reflexivity|]. split; [exact Hiter|].
  split; [cbn [added devices_added]; by rewrite Ha, Hcur, Hinit, Hw1|].
  split; [exact Hm|].
  apply Hd. constructor.
Qed.

End WithEnv.

End SetupMore.

(** ** The views of a constructed cache *)

Module HeldFacts.
Import Forecast CacheFacts FreshnessFacts CacheMore.

(** A payload is held, and every view method that has run has left a view. *)
Definition Held (st : State) : Prop :=
  is_Some (data (cache st))
  /\ forall m, m <> m_update ->
               is_Some (_throttle (cache st) !! m) ->
               is_Some (field_of m (cache st)).

Lemma field_of_store (m m' : method) (d : DataBlock) (c : ForeCastData) :
  m <> m_update ->
  field_of m' (store_of m d c)
  = if decide (m' = m) then Some d else field_of m' c.
Proof. intros Hm. by destruct m, m'. Qed.

Lemma touch_frame (m : method) (t : Z) (c : ForeCastData) :
  data (touch m t c) = data c
  /\ _throttle (touch m t c) = <[m := t]> (_throttle c)
  /\ forall m', field_of m' (touch m t c) = field_of m' c.
Proof. split; [reflexivity|]. split; [reflexivity|]. by intros []. Qed.

Section WithEnv.

Variable env : Env.

Lemma Held_update (st : State) :
  Held st -> Held (final_state (update env st)).
Proof.
  intros [Hdata Hviews]. rewrite update_run. cbn zeta.
  destruct (limited _ _ _); [by split|].
  rewrite update_body_run. cbn zeta.
  destruct (next_response env _) as [e|p]; [by split|].
  destruct (json p !! "flags") as [flags|];
    [destruct (flags !! "units")|]; cbn [final_state]; split; cbn; eauto.
  intros m Hm. rewrite lookup_insert_ne by done. by apply Hviews.
Qed.

Lemma Held_view (m : method) (st : State) :
  m <> m_update -> Held st ->
  exists st',
    call env m st = Ok tt st' /\ Held st' /\ is_Some (field_of m (cache st')).
Proof.
  intros Hm [Hdata Hviews]. rewrite (call_view_run _ _ _ Hm). cbn zeta.
  destruct (limited (cache st) m (next_time env st)) eqn:Hlim.
  - eexists. split; [reflexivity|]. split; [by split|]. cbn.
    apply Hviews; [exact Hm|]. unfold limited in Hlim.
    destruct (_throttle (cache st) !! m); [eauto|discriminate].
  - destruct Hdata as [p Hp]. rewrite Hp.
    eexists. split; [reflexivity|].
    destruct (store_of_frame m (view_of m p) (cache st)) as [Hd Ht].
    match goal with
    | |- Held ?s /\ _ =>
        assert (cache s = touch m (next_time env st)
                            (store_of m (view_of m p) (cache st))) as Hc
          by reflexivity
    end.
    unfold Held. rewrite Hc.
    destruct (touch_frame m (next_time env st)
                (store_of m (view_of m p) (cache st))) as (-> & -> & Hf).
    rewrite Hd, Ht, Hp. split; [split; [eauto|]|].
    + intros m' Hm'. rewrite Hf, (field_of_store _ _ _ _ Hm).
      destruct (decide (m' = m)) as [->|Hne]; [eauto|].
      rewrite lookup_insert_ne by done. by apply Hviews.
    + rewrite Hf, (field_of_store _ _ _ _ Hm). rewrite decide_True by done.
      eauto.
Qed.

Lemma Held_call (m : method) (st : State) :
  Held st -> Held (final_state (call env m st)).
Proof.
  intros H. destruct (decide (m = m_update)) as [->|Hm].
  - by apply Held_update.
  - destruct (Held_view m st Hm H) as (st' & -> & H' & _). exact H'.
Qed.

Lemma reachable_Held (st : State) : reachable env st -> Held st.
Proof.
  induction 1 as [api lat lon units_ w0 w c Hempty Hinit
                 | m st _ IH | l st _ IH | l st _ IH];
    [|by apply Held_call|exact IH|exact IH].
  revert Hinit. unfold ForeCastData_init, mbind, M_bind, bind, run_on.
  set (st0 := {| world := w0; cache := _ |}).
  destruct (update env st0) as [[] st1|e st1] eqn:Hup; [|discriminate].
  cbn. intros [= <- <-].
  destruct (ThrottleFacts.update_ok_inv env st0 st1 eq_refl Hup)
    as (p & flags & u & _ & _ & _ & ->).
  split; cbn; [eauto|].
  intros m Hm. rewrite lookup_insert_ne, lookup_empty by done.
  by intros [? ?].
Qed.

(** X12. Once the cache object has been constructed, a view method never raises:
    it returns, and its view is filled afterwards, whether the call ran the
    body or was held back.  Hence a sensor refresh that returns has read a
    view that is there, not the [None] the field starts with. *)
Theorem views_are_filled (st : State) :
  reachable env st ->
  (forall m, m <> m_update ->
     exists st', call env m st = Ok tt st'
                 /\ is_Some (field_of m (cache st')))
  /\ (forall self self' st',
        ForeCastSensor_update env (self, st) = Ok tt (self', st') ->
        is_Some (field_of (view_method (type self)) (cache st'))).
Proof.
  intros Hreach. pose proof (reachable_Held _ Hreach) as Hheld. split.
  - intros m Hm. destruct (Held_view m st Hm Hheld) as (st' & Hcall & _ & Hf).
    by exists st'.
  - intros self self' st' Hrun.
    destruct (ForeCastSensor_update_ok env _ _ _ _ Hrun) as (st1 & Hup & Hview).
    pose proof (Held_update _ Hheld) as Hheld1. rewrite Hup in Hheld1.
    destruct (Held_view _ st1 (view_method_not_update (type self)) Hheld1)
      as (st2 & Hcall & _ & Hf).
    rewrite Hview in Hcall. by injection Hcall as <-.
Qed.

End WithEnv.

Lemma views_are_filled_witness :
  reachable env_skew (constructed env_skew)
  /\ exists st',
       call env_skew m_update_hourly (constructed env_skew) = Ok tt st'
       /\ is_Some (data_hourly (cache st')).
Proof.
  split; [exact constructed_reachable|].
  exact (proj1 (views_are_filled env_skew (constructed env_skew)
                  constructed_reachable) m_update_hourly ltac:(done)).
Defined.

End HeldFacts.

(** ** Setup of the garage door platform *)

Module GarageDoorPlatform.
Import GarageDoor.

(** The network object [zwave.NETWORK]: its nodes by node id.  The value
    dictionary of a node is keyed by value id. *)
Record ZWaveNetwork : Type := { nodes : gmap Z ZWaveNode }.

Definition node_value (n : ZWaveNode) (id : Z) : option ZWaveValue :=
  List.find (fun v => value_id v =? id) (values n).

Inductive signal : Type := SIGNAL_VALUE_CHANGED.

(** What setting the platform up asks of the value, the dispatcher and the
    host. *)
Inductive platform_effect : Type :=
| SetChangeVerified (v : ZWaveValue) (verify : bool)
| DispatcherConnect (listener : ZwaveGarageDoor) (on : signal)
| AddDevices (devices : list ZwaveGarageDoor).

(** [ZwaveGarageDoor.__init__]; [value_node] is the node object [value.node]
    refers to.  The result is the entity and the registration it made. *)
Definition ZwaveGarageDoor_init (value : ZWaveValue) (value_node : ZWaveNode)
  : ZwaveGarageDoor * list platform_effect :=
  let self := {| _value := value; _node := value_node |} in
  (self, [DispatcherConnect self SIGNAL_VALUE_CHANGED]).

Section WithConstants.

(** The two keys of the discovery dictionary, constants of the [zwave]
    component. *)
Variables ATTR_NODE_ID ATTR_VALUE_ID : string.

(** Find and return Z-Wave garage door device.  The result is the exception
    that left the function, if any, and what it did until then. *)
Definition setup_platform (discovery_info : option (gmap string Z))
    (NETWORK : option ZWaveNetwork) : option exn * list platform_effect :=
  match discovery_info, NETWORK with
  | Some info, Some network =>
      match info !! ATTR_NODE_ID with
      | None => (Some (KeyError ATTR_NODE_ID), [])
      | Some nid =>
          match nodes network !! nid with
          | None => (Some (KeyError (pretty nid)), [])
          | Some node_ =>
              match info !! ATTR_VALUE_ID with
              | None => (Some (KeyError ATTR_VALUE_ID), [])
              | Some vid =>
                  match node_value node_ vid with
                  | None => (Some (KeyError (pretty vid)), [])
                  | Some value =>
                      let made := ZwaveGarageDoor_init value node_ in
                      (None,
                       SetChangeVerified value false
                       :: snd made ++ [AddDevices [fst made]])
                  end
              end
          end
      end
  | _, _ => (None, [])
  end.

Definition adds_device (effects : list platform_effect) : Prop :=
  exists devices, AddDevices devices ∈ effects.

Lemma node_value_found (n : ZWaveNode) (id : Z) (v : ZWaveValue) :
  node_value n id = Some v -> v ∈ values n /\ value_id v = id.
Proof.
  unfold node_value. intros H. apply find_some in H as [Hin Hid].
  split; [by apply list_elem_of_In|by apply Z.eqb_eq].
Qed.

(** X13. The platform adds a device exactly when it is given discovery
    information and a network in which the discovered node id and value id
    resolve; it then adds one entity, bound to the discovered value and its
    node, after switching change verification off on that value; the
    entity's commands address the discovered value id.  Without discovery
    information or without a network it returns having done nothing.  With
    both, an id that does not resolve raises, nothing having been done: a
    discovery dictionary without the node-id key raises [KeyError] of that
    key, a node id that is not in the network [KeyError] of the id, a
    dictionary without the value-id key [KeyError] of that key, a value id
    that is not on the node [KeyError] of the id; and nothing but such a
    [KeyError] is ever raised. *)
Theorem setup_platform_adds_discovered_value
    (discovery_info : option (gmap string Z))
    (NETWORK : option ZWaveNetwork) :
  (adds_device (snd (setup_platform discovery_info NETWORK))
   <-> exists info network nid vid n v,
         discovery_info = Some info /\ NETWORK = Some network
         /\ info !! ATTR_NODE_ID = Some nid /\ nodes network !! nid = Some n
         /\ info !! ATTR_VALUE_ID = Some vid /\ node_value n vid = Some v)
  /\ (forall info network nid vid n v,
        discovery_info = Some info -> NETWORK = Some network ->
        info !! ATTR_NODE_ID = Some nid -> nodes network !! nid = Some n ->
        info !! ATTR_VALUE_ID = Some vid -> node_value n vid = Some v ->
        let door := {| _value := v; _node := n |} in
        setup_platform discovery_info NETWORK
        = (None, [SetChangeVerified v false;
                  DispatcherConnect door SIGNAL_VALUE_CHANGED;
                  AddDevices [door]])
        /\ open_door door = [SetSwitch (node v) vid true]
        /\ close_door door = [SetSwitch (node v) vid false])
  /\ (discovery_info = None \/ NETWORK = None ->
      setup_platform discovery_info NETWORK = (None, []))
  /\ (forall e, fst (setup_platform discovery_info NETWORK) = Some e ->
                (exists key, e = KeyError key)
                /\ snd (setup_platform discovery_info NETWORK) = [])
  /\ (forall info network,
        discovery_info = Some info -> NETWORK = Some network ->
        (info !! ATTR_NODE_ID = None ->
         setup_platform discovery_info NETWORK
         = (Some (KeyError ATTR_NODE_ID), []))
        /\ (forall nid,
              info !! ATTR_NODE_ID = Some nid -> nodes network !! nid = None ->
              setup_platform discovery_info NETWORK
              = (Some (KeyError (pretty nid)), []))
        /\ (forall nid n,
              info !! ATTR_NODE_ID = Some nid -> nodes network !! nid = Some n ->
              info !! ATTR_VALUE_ID = None ->
              setup_platform discovery_info NETWORK
              = (Some (KeyError ATTR_VALUE_ID), []))
        /\ (forall nid n vid,
              info !! ATTR_NODE_ID = Some nid -> nodes network !! nid = Some n ->
              info !! ATTR_VALUE_ID = Some vid -> node_value n vid = None ->
              setup_platform discovery_info NETWORK
              = (Some (KeyError (pretty vid)), []))).
Proof.
  assert (~ adds_device []) as Hnil.
  { intros [devices Hin]. by apply elem_of_nil in Hin. }
  split; [split|split; [|split; [|split]]].
  - unfold setup_platform.
    destruct discovery_info as [info|]; [|by intros ?%Hnil].
    destruct NETWORK as [network|]; [|by intros ?%Hnil].
    destruct (info !! ATTR_NODE_ID) as [nid|] eqn:Hnid; [|by intros ?%Hnil].
    destruct (nodes network !! nid) as [n|] eqn:Hn; [|by intros ?%Hnil].
    destruct (info !! ATTR_VALUE_ID) as [vid|] eqn:Hvid; [|by intros ?%Hnil].
    destruct (node_value n vid) as [v|] eqn:Hv; [|by intros ?%Hnil].
    intros _. by exists info, network, nid, vid, n, v.
  - intros (info & network & nid & vid & n & v & -> & -> & Hnid & Hn & Hvid & Hv).
    unfold setup_platform. rewrite Hnid, Hn, Hvid, Hv. cbn.
    eexists. do 2 apply list_elem_of_further. apply list_elem_of_here.
  - intros info network nid vid n v -> -> Hnid Hn Hvid Hv door.
    unfold setup_platform. rewrite Hnid, Hn, Hvid, Hv.
    split; [reflexivity|].
    destruct (node_value_found _ _ _ Hv) as [_ Hid].
    unfold open_door, close_door. cbn. by rewrite Hid.
  - intros [-> | ->]; [reflexivity|]. by destruct discovery_info.
  - intros e. unfold setup_platform.
    destruct discovery_info as [info|]; [|discriminate].
    destruct NETWORK as [network|]; [|discriminate].
    destruct (info !! ATTR_NODE_ID) as [nid|];
      [|intros [= <-]; split; [eauto|reflexivity]].
    destruct (nodes network !! nid) as [n|];
      [|intros [= <-]; split; [eauto|reflexivity]].
    destruct (info !! ATTR_VALUE_ID) as [vid|];
      [|intros [= <-]; split; [eauto|reflexivity]].
    destruct (node_value n vid) as [v|];
      [discriminate|intros [= <-]; split; [eauto|reflexivity]].
  - intros info network -> ->. unfold setup_platform.
    split; [by intros ->|].
    split; [by intros nid -> ->|].
    split; [by intros nid n -> -> ->|].
    by intros nid n vid -> -> -> ->.
Qed.

End WithConstants.

(** X14. [is_closed] looks at nothing but the values of class 0x25 and index 0:
    two nodes that agree on those values, in their order, give the same
    answer, whatever other values they hold, and so does any entity bound to
    them whatever value it is bound to. *)
Theorem is_closed_only_reads_door_switch (self self' : ZwaveGarageDoor) :
  List.filter is_door_switch (values (_node self))
  = List.filter is_door_switch (values (_node self')) ->
  is_closed self = is_closed self'.
Proof.
  assert (forall vs,
            List.find is_door_switch vs
            = head (List.filter is_door_switch vs)) as Hhead.
  { induction vs as [|v vs IH]; [reflexivity|]. cbn.
    by destruct (is_door_switch v). }
  intros Hsame.
  rewrite !GarageDoorFacts.is_closed_find, !Hhead. by rewrite Hsame.
Qed.

Lemma is_closed_only_reads_door_switch_witness :
  List.filter is_door_switch (values (_node GarageDoorFacts.door))
  = List.filter is_door_switch
      (values {| node_id := 4; values := [GarageDoorFacts.door_switch] |})
  /\ is_closed GarageDoorFacts.door
     = is_closed {| _value := GarageDoorFacts.door_battery;
                    _node := {| node_id := 4;
                                values := [GarageDoorFacts.door_switch] |} |}.
Proof.
  split; [reflexivity|].
  by apply is_closed_only_reads_door_switch.
Defined.

Definition garage_network : ZWaveNetwork :=
  {| nodes := {[ 4 := _node GarageDoorFacts.door ]} |}.

Definition discovered : gmap string Z :=
  list_to_map [("node_id", 4); ("value_id", 7205)].

(** The discovery of a value the node does not have. *)
Definition discovered_elsewhere : gmap string Z :=
  list_to_map [("node_id", 4); ("value_id", 99)].

Lemma setup_platform_adds_discovered_value_witness :
  setup_platform "node_id" "value_id" (Some discovered) (Some garage_network)
  = (None, [SetChangeVerified GarageDoorFacts.door_switch false;
            DispatcherConnect GarageDoorFacts.door SIGNAL_VALUE_CHANGED;
            AddDevices [GarageDoorFacts.door]])
  /\ setup_platform "node_id" "value_id" (Some discovered_elsewhere)
       (Some garage_network)
     = (Some (KeyError "99"), []).
Proof.
  split.
  - exact (proj1 (proj1 (proj2 (setup_platform_adds_discovered_value
                                  "node_id" "value_id" (Some discovered)
                                  (Some garage_network)))
                    discovered garage_network 4 7205
                    (_node GarageDoorFacts.door) GarageDoorFacts.door_switch
                    eq_refl eq_refl eq_refl eq_refl eq_refl eq_refl)).
  - exact (proj2 (proj2 (proj2
             (proj2 (proj2 (proj2 (proj2
                (setup_platform_adds_discovered_value
                   "node_id" "value_id" (Some discovered_elsewhere)
                   (Some garage_network)))))
                discovered_elsewhere garage_network eq_refl eq_refl)))
             4 (_node GarageDoorFacts.door) 99
             eq_refl eq_refl eq_refl eq_refl).
Defined.

End GarageDoorPlatform.

(** ** What a refresh sends, and what a failing refresh keeps *)

Module TraceFacts.
Import Forecast CacheFacts FreshnessFacts RefreshFacts SetupFacts.

(** [more] are requests appended to a log, all of them equal to [r]. *)
Definition appended (r : Request) (before after : list Request)
    (more : list Request) : Prop :=
  after = (before ++ more)%list /\ Forall (fun r' => r' = r) more.

Section WithEnv.

Variable env : Env.

Lemma call_requests (m : method) (st : State) :
  exists more,
    appended (request_of (cache st)) (requests (world st))
      (requests (world (final_state (call env m st)))) more
    /\ (length more <= 1)%nat
    /\ (m <> m_update -> more = [])
    /\ request_of (cache (final_state (call env m st)))
       = request_of (cache st).
Proof.
  destruct (decide (m = m_update)) as [->|Hm].
  - cbn [call]. rewrite update_run. cbn zeta.
    destruct (limited _ _ _).
    { exists []. cbn. unfold appended. rewrite app_nil_r.
      repeat split; try done; try lia. }
    rewrite update_body_run. cbn zeta.
    exists [request_of (cache st)].
    destruct (next_response env _) as [e|p];
      [|destruct (json p !! "flags") as [flags|];
        [destruct (flags !! "units")|]];
      cbn; unfold appended; repeat split; try done; try lia;
      by repeat constructor.
  - rewrite (call_view_run _ _ _ Hm). cbn zeta. exists [].
    destruct (limited _ _ _);
      [|destruct (data (cache st)); [|]];
      cbn; unfold appended; rewrite ?app_nil_r; repeat split; try done;
      try lia; by destruct m.
Qed.

Lemma poll_requests (self : ForeCastSensor) (st : State) :
  exists more,
    appended (request_of (cache st)) (requests (world st))
      (requests (world (poll env self st))) more
    /\ (length more <= 1)%nat
    /\ request_of (cache (poll env self st)) = request_of (cache st).
Proof.
  destruct (call_requests m_update st) as (more & Hlog & Hlen & _ & Hpar).
  destruct (poll_calls env self st) as [-> | ->].
  - by exists more.
  - destruct (call_requests (view_method (type self))
                (final_state (update env st)))
      as (none & [Hlog' _] & _ & Hnone & Hpar').
    rewrite (Hnone (view_method_not_update _)), app_nil_r in Hlog'.
    exists more. rewrite Hlog', Hpar'.
    split; [exact Hlog|]. split; [exact Hlen|exact Hpar].
Qed.

(** X15. A refresh of a sensor, whatever its outcome, sends at most one request,
    and that request carries the key, the coordinates and the units the
    cache object has, which the refresh leaves as they are. *)
Theorem refresh_sends_at_most_one_request (self : ForeCastSensor)
    (st : State) :
  exists more,
    requests (world (poll env self st))
    = (requests (world st) ++ more)%list
    /\ (length more <= 1)%nat
    /\ Forall (fun r => r = {| req_api_key := _api_key (cache st);
                               req_latitude := latitude (cache st);
                               req_longitude := longitude (cache st);
                               req_units := units (cache st) |}) more
    /\ _api_key (cache (poll env self st)) = _api_key (cache st)
    /\ latitude (cache (poll env self st)) = latitude (cache st)
    /\ longitude (cache (poll env self st)) = longitude (cache st)
    /\ units (cache (poll env self st)) = units (cache st).
Proof.
  destruct (poll_requests self st) as (more & [Hlog Hall] & Hlen & Hpar).
  exists more. split; [exact Hlog|]. split; [exact Hlen|].
  split; [exact Hall|]. injection Hpar as H1 H2 H3 H4. by repeat split.
Qed.

Lemma update_unit_of_measurement_raise (self : ForeCastSensor) (st : State)
    (e : exn) (s1 : ForeCastSensor * State) :
  update_unit_of_measurement (self, st) = Raise e s1 -> s1 = (self, st).
Proof.
  unfold update_unit_of_measurement.
  unfold mbind, M_bind, bind, get, lift, on_self, modify, dict_get, list_get.
  cbn [fst snd].
  destruct (unit_index_of (unit_system (cache st))) as [e0|i];
    [by intros [= _ <-]|].
  destruct (SENSOR_TYPES !! type self) as [row|]; [|by intros [= _ <-]].
  destruct (row !! i) as [u|]; [discriminate|by intros [= _ <-]].
Qed.

(** X16. A refresh that raises leaves the state the sensor showed before: the
    state, like the type, the prefix and the display name, is what it was,
    whether the fetch, the unit lookup, the view or the conversion of the
    value failed. *)
Theorem failed_refresh_keeps_state (self self' : ForeCastSensor)
    (st st' : State) (e : exn) :
  ForeCastSensor_update env (self, st) = Raise e (self', st') ->
  _state self' = _state self
  /\ type self' = type self
  /\ client_name self' = client_name self
  /\ _name self' = _name self.
Proof.
  unfold ForeCastSensor_update.
  unfold mbind, M_bind, bind, on_cache, get, on_self, modify, lift.
  cbn [fst snd].
  destruct (update env st) as [[] st1|e1 st1]; [|by intros [= _ <- _]].
  destruct (update_unit_of_measurement (self, st1)) as [[] s1|e1 s1] eqn:Huum.
  2:{ rewrite (update_unit_of_measurement_raise _ _ _ _ Huum).
      by intros [= _ <- _]. }
  destruct (update_unit_of_measurement_ok _ _ _ Huum)
    as (row & i & u & _ & _ & _ & ->).
  cbn [fst snd set_unit_of_measurement type].
  destruct (String.eqb (type self) "minutely_summary"); cbn [fst snd].
  { destruct (update_minutely env st1) as [[] st2|e2 st2]; [discriminate|].
    by intros [= _ <- _]. }
  destruct (String.eqb (type self) "hourly_summary"); cbn [fst snd].
  { destruct (update_hourly env st1) as [[] st2|e2 st2]; [discriminate|].
    by intros [= _ <- _]. }
  destruct (String.eqb (type self) "daily_summary"); cbn [fst snd].
  { destruct (update_daily env st1) as [[] st2|e2 st2]; [discriminate|].
    by intros [= _ <- _]. }
  destruct (update_currently env st1) as [[] st2|e2 st2];
    [|by intros [= _ <- _]].
  cbn [fst snd].
  destruct (get_currently_state _ _); [|discriminate].
  by intros [= _ <- _].
Qed.

End WithEnv.

(** A sensor that has shown 'Sunny' when the service goes down. *)
Definition sunny_sensor : ForeCastSensor :=
  set_state (PyStr "Sunny") (SensorFacts.sensor_of_type "daily_summary").

Lemma failed_refresh_keeps_state_witness :
  exists e self' st',
    ForeCastSensor_update env_down (sunny_sensor, stale_state)
    = Raise e (self', st')
    /\ _state self' = PyStr "Sunny".
Proof.
  destruct (ForeCastSensor_update env_down (sunny_sensor, stale_state))
    as [[] s|e [self' st']] eqn:Hrun; [vm_compute in Hrun; discriminate|].
  exists e, self', st'. split; [reflexivity|].
  exact (proj1 (failed_refresh_keeps_state env_down _ _ _ _ _ Hrun)).
Defined.

Section Setup.

Variable env : Env.
Variables CONF_API_KEY TEMP_CELSIUS : string.

Lemma appended_trans (r : Request) (l0 l1 l2 more1 more2 : list Request) :
  appended r l0 l1 more1 -> appended r l1 l2 more2 ->
  appended r l0 l2 (more1 ++ more2)%list.
Proof.
  intros [-> H1] [-> H2]. split; [by rewrite app_assoc|by apply Forall_app].
Qed.

Lemma ForeCastSensor_init_requests (ty : string) (name : value) (st : State) :
  exists more,
    appended (request_of (cache st)) (requests (world st))
      (requests (world (final_state (ForeCastSensor_init env ty name st))))
      more
    /\ request_of (cache (final_state (ForeCastSensor_init env ty name st)))
       = request_of (cache st).
Proof.
  assert (exists more,
            appended (request_of (cache st)) (requests (world st))
              (requests (world st)) more
            /\ request_of (cache st) = request_of (cache st)) as Hstay.
  { exists []. split; [|reflexivity]. split; [by rewrite app_nil_r|constructor]. }
  unfold ForeCastSensor_init, mbind, M_bind, bind, lift, dict_get, list_get.
  destruct (SENSOR_TYPES !! ty) as [row|]; [|exact Hstay].
  destruct (row !! 0%nat) as [n|]; [|exact Hstay].
  unfold constructing.
  match goal with
  | |- context [ForeCastSensor_update env (?self, st)] =>
      destruct (poll_requests env self st) as (more & Hlog & _ & Hpar);
      unfold poll in Hlog, Hpar;
      destruct (ForeCastSensor_update env (self, st)) as [[] s|e s]
  end; by exists more.
Qed.

Lemma add_sensors_requests (variables : list value) (name : value) :
  forall (sensors : list ForeCastSensor) (st : State),
  exists more,
    appended (request_of (cache st)) (requests (world st))
      (requests (world (final_state
                          (add_sensors env variables name sensors st))))
      more
    /\ request_of (cache (final_state
                            (add_sensors env variables name sensors st)))
       = request_of (cache st).
Proof.
  induction variables as [|variable rest IH]; intros sensors st.
  { exists []. split; [|reflexivity].
    split; [by rewrite app_nil_r|constructor]. }
  assert (forall l,
            exists more,
              appended (request_of (cache st)) (requests (world st))
                (requests (world (final_state
                   (add_sensors env rest name sensors
                      (with_world (logged l) st))))) more
              /\ request_of (cache (final_state
                    (add_sensors env rest name sensors
                       (with_world (logged l) st))))
                 = request_of (cache st)) as Hskip.
  { intros l. exact (IH sensors (with_world (logged l) st)). }
  destruct variable as [| b | n | f | v | l]; cbn [add_sensors];
    try (unfold mbind, M_bind, bind, modify; apply Hskip).
  - destruct (bool_decide (is_Some (SENSOR_TYPES !! v)));
      [|unfold mbind, M_bind, bind, modify; apply Hskip].
    unfold mbind, M_bind, bind.
    destruct (ForeCastSensor_init_requests v name st) as (more & Hlog & Hpar).
    destruct (ForeCastSensor_init env v name st) as [self st1|e st1];
      cbn [final_state] in *; [|by exists more].
    destruct (IH (sensors ++ [self])%list st1) as (more' & Hlog' & Hpar').
    rewrite Hpar in Hlog'.
    exists (more ++ more')%list. split; [by eapply appended_trans|].
    by rewrite Hpar'.
  - exists []. split; [|reflexivity].
    split; [by rewrite app_nil_r|constructor].
Qed.

Lemma ForeCastData_init_requests (api lat lon units_ : value) (w : World) :
  let req := {| req_api_key := api; req_latitude := lat;
                req_longitude := lon; req_units := units_ |} in
  requests (final_state (ForeCastData_init env api lat lon units_ w))
  = (requests w ++ [req])%list
  /\ forall fd w2,
       ForeCastData_init env api lat lon units_ w = Ok fd w2 ->
       request_of fd = req.
Proof.
  unfold ForeCastData_init, mbind, M_bind, bind, run_on.
  rewrite update_run. cbn zeta.
  replace (limited _ m_update _) with false by reflexivity.
  rewrite update_body_run. cbn zeta.
  destruct (next_response env _) as [e|p];
    [|destruct (json p !! "flags") as [flags|];
      [destruct (flags !! "units")|]];
    cbn; split; try done.
  by intros fd w2 [= <- _].
Qed.

Lemma run_on_view_requests (m : method) (fd : ForeCastData) (w : World) :
  m <> m_update ->
  requests (final_state (run_on fd (call env m) w)) = requests w
  /\ forall r fd' w', run_on fd (call env m) w = Ok (r, fd') w' ->
                      request_of fd' = request_of fd.
Proof.
  intros Hm. unfold run_on.
  destruct (call_requests env m {| world := w; cache := fd |})
    as (more & [Hlog _] & _ & Hnone & Hpar).
  rewrite (Hnone Hm), app_nil_r in Hlog. cbn in Hlog, Hpar.
  destruct (call env m _) as [[] st|e st]; cbn in *; split; try done.
  by intros r fd' w' [= _ <- _].
Qed.

(** X17. Once the location and the API key are there, the first thing
    [setup_platform] sends is a request with the configured key and the
    host's coordinates; its units are the configured 'units' when there are
    any, otherwise 'si' on a host that uses the Celsius unit and 'us' on any
    other; every further request the setup sends, whatever its outcome, is
    that same request. *)
Theorem setup_platform_requests (hass : HassConfig)
    (config : gmap string value) (w : World) (key : value) :
  hass_latitude hass <> PyNone -> hass_longitude hass <> PyNone ->
  config !! CONF_API_KEY = Some key ->
  exists first more,
    requests (final_state
                (setup_platform env CONF_API_KEY TEMP_CELSIUS hass config w))
    = (requests w ++ first :: more)%list
    /\ Forall (fun r => r = first) more
    /\ req_api_key first = key
    /\ req_latitude first = hass_latitude hass
    /\ req_longitude first = hass_longitude hass
    /\ (forall u, config !! "units" = Some u -> req_units first = u)
    /\ (config !! "units" = None ->
        req_units first
        = if eq_str (hass_temperature_unit hass) TEMP_CELSIUS
          then PyStr "si" else PyStr "us").
Proof.
  intros Hlat Hlon Hkey.
  exists (setup_request CONF_API_KEY TEMP_CELSIUS hass config).
  assert (exists more,
            requests (final_state
              (setup_platform env CONF_API_KEY TEMP_CELSIUS hass config w))
            = (requests w
               ++ setup_request CONF_API_KEY TEMP_CELSIUS hass config
                  :: more)%list
            /\ Forall (fun r => r = setup_request CONF_API_KEY TEMP_CELSIUS
                                     hass config) more) as (more & Hlog & Hall).
  2:{ exists more. split; [exact Hlog|]. split; [exact Hall|].
      unfold setup_request. cbn. rewrite Hkey.
      split; [reflexivity|]. split; [reflexivity|]. split; [reflexivity|].
      split; [by intros u ->|by intros ->]. }
  unfold setup_platform.
  rewrite (is_None_false _ Hlat), (is_None_false _ Hlon). cbn [orb].
  unfold mbind at 1, M_bind at 1, bind at 1.
  rewrite (validate_config_present _ _ _ _ Hkey). cbn [negb].
  unfold mbind at 1, M_bind at 1, bind at 1. unfold try_except.
  unfold mbind at 1, M_bind at 1, bind at 1.
  match goal with
  | |- context [ForeCastData_init env ?a ?b ?c ?d w] =>
      destruct (ForeCastData_init_requests a b c d w) as [Hinit Hreq];
      destruct (ForeCastData_init env a b c d w) as [fd w2|e w2]
  end; cbn [final_state] in Hinit.
  2:{ exists []. split; [|constructor].
      destruct (is_ValueError e);
        unfold mbind, M_bind, bind, log_error, modify, mret, M_ret, ret; cbn;
        rewrite Hinit; unfold setup_request; by rewrite Hkey. }
  specialize (Hreq fd w2 eq_refl).
  unfold mbind at 1, M_bind at 1, bind at 1.
  destruct (run_on_view_requests m_update_currently fd w2 ltac:(done))
    as [Hcur Hreq'].
  cbn [call] in Hcur, Hreq'.
  destruct (run_on fd (update_currently env) w2) as [[[] fd'] w3|e w3];
    cbn [final_state] in Hcur.
  2:{ exists []. split; [|constructor].
      destruct (is_ValueError e);
        unfold mbind, M_bind, bind, log_error, modify, mret, M_ret, ret; cbn;
        rewrite Hcur, Hinit; unfold setup_request; by rewrite Hkey. }
  specialize (Hreq' _ _ _ eq_refl).
  assert (requests w3
          = (requests w
             ++ [setup_request CONF_API_KEY TEMP_CELSIUS hass config])%list)
    as Hw3.
  { rewrite Hcur, Hinit. unfold setup_request. by rewrite Hkey. }
  assert (request_of fd'
          = setup_request CONF_API_KEY TEMP_CELSIUS hass config) as Hfd'.
  { rewrite Hreq', Hreq. unfold setup_request. by rewrite Hkey. }
  cbn [snd]. unfold mret at 1, M_ret at 1, ret at 1.
  unfold mbind at 1, M_bind at 1, bind at 1. unfold lift at 1, dict_get at 1.
  destruct (config !! "monitored_conditions") as [conditions|];
    [|exists []; split; [by cbn|constructor]].
  unfold mbind at 1, M_bind at 1, bind at 1. unfold lift at 1.
  destruct (py_iter conditions) as [e|variables];
    [exists []; split; [by cbn|constructor]|].
  unfold mbind at 1, M_bind at 1, bind at 1.
  destruct (add_sensors_requests variables
              (default (PyStr DEFAULT_NAME) (config !! "name")) []
              {| world := w3; cache := fd' |})
    as (more & [Hlog Hall] & _).
  cbn [world cache] in Hlog, Hall. rewrite Hfd' in Hall.
  exists more. split; [|exact Hall].
  unfold run_on.
  destruct (add_sensors env variables _ [] _) as [sensors st'|e st'];
    cbn [final_state] in Hlog;
    unfold mbind, M_bind, bind, modify, mret, M_ret, ret;
    cbn [final_state fst snd requests devices_added world];
    rewrite Hlog, Hw3, <- app_assoc; reflexivity.
Qed.

End Setup.

Lemma setup_platform_requests_witness :
  exists first more,
    requests (final_state
                (setup_platform env_up "api_key" "C"
                   {| hass_latitude := PyFloat 52; hass_longitude := PyFloat 5;
                      hass_temperature_unit := PyStr "F" |}
                   platform_config new_world))
    = first :: more
    /\ Forall (fun r => r = first) more
    /\ req_units first = PyStr "us".
Proof.
  destruct (setup_platform_requests env_up "api_key" "C"
              {| hass_latitude := PyFloat 52; hass_longitude := PyFloat 5;
                 hass_temperature_unit := PyStr "F" |}
              platform_config new_world (PyStr "key")
              ltac:(discriminate) ltac:(discriminate) eq_refl)
    as (first & more & Hlog & Hall & _ & _ & _ & _ & Hdefault).
  exists first, more. split; [exact Hlog|]. split; [exact Hall|].
  exact (Hdefault eq_refl).
Defined.

End TraceFacts.

(** ** Construction of the cache object *)

Module InitFacts.
Import Forecast CacheFacts.

Section WithEnv.

Variable env : Env.

(** X18. Constructing the cache object sends exactly one request, carrying the
    arguments of the constructor.  When the service answers with a payload
    that reports its units, the object holds that payload and that flag, its
    four views are still empty and its parameters are the arguments; when
    the fetch fails with one of the four failures [update] wraps, no object
    is made and the [ValueError] leaves the constructor. *)
Theorem ForeCastData_init_result (api lat lon units_ : value) (w : World) :
  let req := {| req_api_key := api; req_latitude := lat;
                req_longitude := lon; req_units := units_ |} in
  requests (final_state (ForeCastData_init env api lat lon units_ w))
  = (requests w ++ [req])%list
  /\ (forall p flags u,
        load_forecast env (length (requests w)) req = inr p ->
        json p !! "flags" = Some flags -> flags !! "units" = Some u ->
        exists fd w',
          ForeCastData_init env api lat lon units_ w = Ok fd w'
          /\ data fd = Some p /\ unit_system fd = u
          /\ data_currently fd = None /\ data_minutely fd = None
          /\ data_hourly fd = None /\ data_daily fd = None
          /\ _api_key fd = api /\ latitude fd = lat
          /\ longitude fd = lon /\ units fd = units_)
  /\ (forall e,
        load_forecast env (length (requests w)) req = inl e ->
        fetch_failure e ->
        exists w',
          ForeCastData_init env api lat lon units_ w
          = Raise (ValueError "Unable to init Forecast.io. - %s" (Some e)) w').
Proof.
  intros req.
  unfold ForeCastData_init, mbind, M_bind, bind, run_on.
  rewrite update_run. cbn zeta.
  replace (limited _ m_update _) with false by reflexivity.
  rewrite update_body_run. cbn zeta.
  change (next_response env _)
    with (load_forecast env (length (requests w)) req).
  destruct (load_forecast env (length (requests w)) req) as [e|p].
  - split; [reflexivity|]. split; [discriminate|].
    intros e' [= <-] Hfail. apply fetch_failure_reflect in Hfail.
    rewrite Hfail. cbn. eauto.
  - split.
    { destruct (json p !! "flags") as [flags|];
        [destruct (flags !! "units")|]; reflexivity. }
    split; [|discriminate].
    intros p' flags u [= <-] -> ->. cbn.
    do 2 eexists. split; [reflexivity|]. by repeat split.
Qed.

End WithEnv.

Lemma ForeCastData_init_result_witness :
  exists fd w',
    ForeCastData_init env_up (PyStr "key") (PyFloat 52) (PyFloat 5)
      (PyStr "si") new_world = Ok fd w'
    /\ data fd = Some (payload "us" "Rain")
    /\ unit_system fd = PyStr "us"
    /\ data_daily fd = None.
Proof.
  destruct (proj1 (proj2 (ForeCastData_init_result env_up (PyStr "key")
                            (PyFloat 52) (PyFloat 5) (PyStr "si") new_world))
              (payload "us" "Rain") {[ "units" := PyStr "us" ]} (PyStr "us")
              eq_refl eq_refl eq_refl)
    as (fd & w' & Hinit & Hdata & Hus & _ & _ & _ & Hdaily & _).
  by exists fd, w'.
Defined.

End InitFacts.

(** * The two properties of the throttled cache *)

(** ** One throttle per method *)

Module PerMethodFacts.
Import Forecast CacheFacts ThrottleFacts FreshnessFacts CacheMore.

Section WithEnv.

Variable env : Env.








End WithEnv.



(** A service that answers the constructor's request and then cannot be
    reached, and a clock that reads 0 s for the constructor and then 130 s,
    131 s and so on. *)
Definition env_lost : Env :=
  {| utcnow := fun k =>
       match k with
       | O => 0
       | S _ => timedelta_seconds (129 + Z.of_nat k)
       end;
     load_forecast := fun k _ =>
       match k with
       | O => inr (payload "si" "Rain")
       | S _ => inl (ConnectError "unreachable")
       end |}.

(** A call of [update] whose fetch fails leaves the throttle open: the call
    made a second later fetches again, so that the two calls send two
    requests. *)
Lemma failed_updates_fetch_twice :
  let st := constructed env_lost in
  let st1 := final_state (update env_lost st) in
  let st2 := final_state (update env_lost st1) in
  next_time env_lost st = timedelta_seconds 130
  /\ next_time env_lost st1 = timedelta_seconds 131
  /\ length (requests (world st2)) = S (S (length (requests (world st)))).
Proof. repeat split; vm_compute; reflexivity. Qed.


End PerMethodFacts.

(** ** How old what a sensor reads can be *)

Module ReadFacts.
Import Forecast CacheFacts ThrottleFacts FreshnessFacts CacheMore HeldFacts.

Section WithEnv.

Variable env : Env.



(** The clock never runs backwards. *)
Hypothesis clock_mono :
  forall i j : nat, (i <= j)%nat -> utcnow env i <= utcnow env j.


End WithEnv.


End ReadFacts.
